(** * Video highlight pipeline: registry, orchestrator and content planner

    A shallow embedding of [main.py], [models.py], [ai_analyzer.py] and
    [video_processor.py].  The four module-level dictionaries of [main.py]
    are finite maps keyed by identifier strings, the upload, clip, thumbnail
    and subtitle directories are a finite set of paths, and every external
    collaborator (moviepy, the generative model, [uuid], the clock) is an
    oracle collected in [Env].  Handlers and the background task are written
    in a small state/exception/trace monad [M]: a computation keeps all the
    mutations it made before an exception escapes, exactly as Python does. *)

From Stdlib Require Import QArith Lqa Ascii.
From stdpp Require Import gmap strings list fin_maps pretty.

Local Open Scope string_scope.
Local Open Scope list_scope.
Local Open Scope nat_scope.

(** ** models.py *)

Module VideoMetadata.
Record t := mk {
  id : string;
  title : string;
  description : option string;
  original_filename : string;
  upload_path : string;
  file_type : string;
  upload_date : string;
  processing_status : string;
  error_message : option string;
  duration : option Q;
  frames : option Z;
  highlights_count : option nat;
  content_plan_path : option string }.

(** Attribute assignments used by [process_video]. *)
Definition set_duration (x : option Q) (v : t) : t :=
  mk (id v) (title v) (description v) (original_filename v) (upload_path v)
     (file_type v) (upload_date v) (processing_status v) (error_message v)
     x (frames v) (highlights_count v) (content_plan_path v).
Definition set_frames (x : option Z) (v : t) : t :=
  mk (id v) (title v) (description v) (original_filename v) (upload_path v)
     (file_type v) (upload_date v) (processing_status v) (error_message v)
     (duration v) x (highlights_count v) (content_plan_path v).
Definition set_processing_status (x : string) (v : t) : t :=
  mk (id v) (title v) (description v) (original_filename v) (upload_path v)
     (file_type v) (upload_date v) x (error_message v)
     (duration v) (frames v) (highlights_count v) (content_plan_path v).
Definition set_error_message (x : option string) (v : t) : t :=
  mk (id v) (title v) (description v) (original_filename v) (upload_path v)
     (file_type v) (upload_date v) (processing_status v) x
     (duration v) (frames v) (highlights_count v) (content_plan_path v).
Definition set_highlights_count (x : option nat) (v : t) : t :=
  mk (id v) (title v) (description v) (original_filename v) (upload_path v)
     (file_type v) (upload_date v) (processing_status v) (error_message v)
     (duration v) (frames v) x (content_plan_path v).
Definition set_content_plan_path (x : option string) (v : t) : t :=
  mk (id v) (title v) (description v) (original_filename v) (upload_path v)
     (file_type v) (upload_date v) (processing_status v) (error_message v)
     (duration v) (frames v) (highlights_count v) x.
End VideoMetadata.

Module HighlightClip.
Record t := mk {
  id : string;
  video_id : string;
  title : string;
  description : option string;
  start_time : Q;
  end_time : Q;
  clip_path : string;
  subtitle_path : option string;
  thumbnail_path : option string }.
End HighlightClip.

Module ContentPost.
Record t := mk {
  clip_id : string;
  title : string;
  caption : string;
  platform : string;
  suggested_posting_date : option string;
  hashtags : list string }.
End ContentPost.

Module ContentPlan.
Record t := mk {
  video_id : string;
  title : string;
  generated_date : string;
  posts : list ContentPost.t }.
End ContentPlan.

Module ProcessingStatus.
Record t := mk {
  video_id : string;
  status : string }.
End ProcessingStatus.

(** ** Exceptions *)

Inductive exn :=
| HTTPException (status_code : nat) (detail : string)
| KeyError (key : string)
| ValueError (msg : string)
| FileNotFoundError (msg : string)
| AttributeError (msg : string)
| ValidationError (msg : string)
| CapabilityError (msg : string).

(** [str(e)] as stored in [error_message]. *)
Definition exn_str (e : exn) : string :=
  match e with
  | HTTPException _ d => d
  | KeyError k => "'" +:+ k +:+ "'"
  | ValueError m | FileNotFoundError m | AttributeError m | ValidationError m
  | CapabilityError m => m
  end.

(** ** The process state: the four in-memory tables, the files on disk and
    the number of identifiers drawn so far. *)

Record World := mkWorld {
  videos_db : gmap string VideoMetadata.t;
  highlights_db : gmap string HighlightClip.t;
  content_plans_db : gmap string ContentPlan.t;
  processing_status_db : gmap string ProcessingStatus.t;
  files : gset string;
  uuid_drawn : nat }.

Definition with_videos (f : gmap string VideoMetadata.t → gmap string VideoMetadata.t)
    (w : World) : World :=
  mkWorld (f (videos_db w)) (highlights_db w) (content_plans_db w)
          (processing_status_db w) (files w) (uuid_drawn w).
Definition with_highlights (f : gmap string HighlightClip.t → gmap string HighlightClip.t)
    (w : World) : World :=
  mkWorld (videos_db w) (f (highlights_db w)) (content_plans_db w)
          (processing_status_db w) (files w) (uuid_drawn w).
Definition with_content_plans (f : gmap string ContentPlan.t → gmap string ContentPlan.t)
    (w : World) : World :=
  mkWorld (videos_db w) (highlights_db w) (f (content_plans_db w))
          (processing_status_db w) (files w) (uuid_drawn w).
Definition with_processing_status
    (f : gmap string ProcessingStatus.t → gmap string ProcessingStatus.t)
    (w : World) : World :=
  mkWorld (videos_db w) (highlights_db w) (content_plans_db w)
          (f (processing_status_db w)) (files w) (uuid_drawn w).
Definition with_files (f : gset string → gset string) (w : World) : World :=
  mkWorld (videos_db w) (highlights_db w) (content_plans_db w)
          (processing_status_db w) (f (files w)) (uuid_drawn w).

Definition empty_world : World := mkWorld ∅ ∅ ∅ ∅ ∅ 0.

(** ** Observable events.

    [StatusWritten] is emitted by every assignment to
    [processing_status_db[video_id]] and carries the state right after the
    write; [JobStatusWritten] by every assignment to the Job's own
    [processing_status]; [Called] by every call that leaves the process. *)

Inductive capability_call :=
| OpenVideo (path : string)
| HighlightInference (video_path : string)
| CutClip (start_time end_time : Q) (output_path : string)
| CutThumbnail (time : Q) (output_path : string)
| CaptionInference (clip_path : string)
| WriteFile (path : string)
| ContentPlanInference (highlights : list HighlightClip.t).

Inductive Event :=
| StatusWritten (video_id status : string) (after : World)
| JobStatusWritten (video_id status : string)
| Called (c : capability_call).

(** ** The monad *)

Definition M (A : Type) : Type := World → (exn + A) * World * list Event.

Definition ret {A} (a : A) : M A := λ w, (inr a, w, []).
Definition raise {A} (e : exn) : M A := λ w, (inl e, w, []).
Definition bind {A B} (m : M A) (k : A → M B) : M B := λ w,
  match m w with
  | (inl e, w1, t1) => (inl e, w1, t1)
  | (inr a, w1, t1) =>
      match k a w1 with
      | (r, w2, t2) => (r, w2, t1 ++ t2)
      end
  end.

#[export] Instance M_ret : MRet M := @ret.
#[export] Instance M_bind : MBind M := λ A B k m, bind m k.

(** [try: body except Exception as e: handler e] *)
Definition try_except {A} (body : M A) (handler : exn → M A) : M A := λ w,
  match body w with
  | (inl e, w1, t1) =>
      match handler e w1 with
      | (r, w2, t2) => (r, w2, t1 ++ t2)
      end
  | (inr a, w1, t1) => (inr a, w1, t1)
  end.

Definition get : M World := λ w, (inr w, w, []).
Definition modify (f : World → World) : M unit := λ w, (inr tt, f w, []).
Definition emit (ev : Event) : M unit := λ w, (inr tt, w, [ev]).

(** A call to an external collaborator: recorded, then it returns or raises. *)
Definition call {A} (c : capability_call) (outcome : exn + A) : M A :=
  emit (Called c);;
  match outcome with
  | inl e => raise e
  | inr a => ret a
  end.

Definition result_of {A} (r : (exn + A) * World * list Event) : exn + A := r.1.1.
Definition world_of {A} (r : (exn + A) * World * list Event) : World := r.1.2.
Definition events_of {A} (r : (exn + A) * World * list Event) : list Event := r.2.

(** ** External collaborators

    Everything the repository does not compute itself is read from [Env]:
    the identifiers [uuid.uuid4()] hands out, the clock, what moviepy finds
    in a file, whether a write succeeds, the numbers [random.random()]
    draws, the text pydantic gives a [ValidationError], and what the
    generative model answers once its text went through [json.loads].  A
    reply is [None] when extracting or decoding the JSON raises
    [JSONDecodeError] or [IndexError]; otherwise it is the decoded value, an
    object or something else. *)

Record clip_info := mk_clip { clip_duration : Q; clip_fps : Q }.

Inductive json_value (A : Type) :=
| JObject (fields : A)
| JOther.
Arguments JObject {A} fields.
Arguments JOther {A}.

(** An item of ["highlighted_moments"]; an absent key is [None]. *)
Module Moment.
Record t := mk {
  start_time : option Q;
  end_time : option Q;
  title : option string;
  description : option string }.
End Moment.

(** What [item.get(key, default)] finds under a key of a decoded object, as
    the pydantic field it is handed to sees it: the key is absent, it holds
    JSON null, it holds a value the field's type accepts (stored as [a]), or
    it holds a value the field's type rejects. *)
Inductive json_field (A : Type) :=
| Absent
| Null
| Valid (a : A)
| Invalid.
Arguments Absent {A}.
Arguments Null {A}.
Arguments Valid {A} a.
Arguments Invalid {A}.

(** The keys of an object of ["content_plan"] that the planner reads. *)
Module PlanItem.
Record t := mk {
  title : json_field string;
  caption : json_field string;
  platform : json_field string;
  suggested_posting_date : json_field string;
  hashtags : json_field (list string) }.
End PlanItem.

Record Env := mkEnv {
  uuid4_str : nat → string;
  now_isoformat : string;
  (** [(datetime.now() + timedelta(days=n)).strftime("%Y-%m-%d")] *)
  strftime_days_ahead : nat → string;
  random : nat → Q;
  VideoFileClip : string → exn + clip_info;
  write_videofile : Q → Q → string → exn + unit;
  save_frame : Q → string → exn + unit;
  (** [open(path, mode)], then what is written through the handle *)
  open_write : string → exn + unit;
  write_data : string → exn + unit;
  subtitles_reply : string → exn + string;
  highlights_reply : string → exn + option (json_value (option (list Moment.t)));
  content_plan_reply :
    list HighlightClip.t
    → exn + option (json_value (option (list (json_value PlanItem.t))));
  (** [str(e)] of the [ValidationError] of a model, given the fields rejected *)
  validation_message : string → list string → string }.

Section Program.
Context (env : Env).

(** [str(uuid.uuid4())] *)
Definition uuid4 : M string :=
  w ← get;
  modify (λ w, mkWorld (videos_db w) (highlights_db w) (content_plans_db w)
                       (processing_status_db w) (files w) (S (uuid_drawn w)));;
  mret (uuid4_str env (uuid_drawn w)).

(** [with open(path, mode) as f: <write to f>]: [open] creates the file or
    raises and creates nothing; the write that follows can still raise, and
    then the file stays on disk. *)
Definition write_file (path : string) : M unit :=
  call (WriteFile path) (open_write env path);;
  modify (with_files (λ fs, {[path]} ∪ fs));;
  match write_data env path with
  | inl e => raise e
  | inr _ => mret tt
  end.

(** ** video_processor.py *)

(** [VideoProcessor.__init__]; the processor is represented by what moviepy
    read from the file. *)
Definition VideoProcessor (video_path : string) : M clip_info :=
  w ← get;
  if bool_decide (video_path ∈ files w)
  then call (OpenVideo video_path) (VideoFileClip env video_path)
  else raise (FileNotFoundError ("Video file not found: " +:+ video_path)).

Definition get_duration (video_clip : clip_info) : Q := clip_duration video_clip.

(** [int(fps * duration)] truncates towards zero *)
Definition get_frame_count (video_clip : clip_info) : Z :=
  let x := (clip_fps video_clip * clip_duration video_clip)%Q in
  Z.quot (Qnum x) (Zpos (Qden x)).

Definition extract_clip (start_time end_time : Q) (output_path : string) : M string :=
  call (CutClip start_time end_time output_path)
       (write_videofile env start_time end_time output_path);;
  modify (with_files (λ fs, {[output_path]} ∪ fs));;
  mret output_path.

Definition extract_thumbnail (time : Q) (output_path : string) : M string :=
  call (CutThumbnail time output_path) (save_frame env time output_path);;
  modify (with_files (λ fs, {[output_path]} ∪ fs));;
  mret output_path.

(** ** ai_analyzer.py *)

(** [random.uniform(a, b)] on the [n]-th draw *)
Definition uniform (n : nat) (a b : Q) : Q := (a + (b - a) * random env n)%Q.

(** One iteration of the loop that fabricates highlights when the reply
    cannot be decoded. *)
Definition mock_highlight (duration : Q) (i : nat) : Moment.t :=
  let segment_duration := (duration / 5)%Q in
  let start_time :=
    (inject_Z (Z.of_nat i) * segment_duration
     + uniform (2 * i) 0 (segment_duration * (3 # 10)))%Q in
  let end_time :=
    (start_time
     + uniform (2 * i + 1) (segment_duration * (5 # 10)) (segment_duration * (8 # 10)))%Q in
  let end_time := if Qlt_le_dec duration end_time then duration else end_time in
  Moment.mk (Some start_time) (Some end_time)
    (Some ("Highlight Moment " +:+ pretty (i + 1)))
    (Some "This is an automatically detected highlight from the video.").

Definition mock_highlights (duration : Q) : list Moment.t :=
  mock_highlight duration <$> seq 0 3.

(** Sampling and encoding the frames sent along with the prompt is part of
    the inference call. *)
Definition analyze_video (video_path : string)
    : M (json_value (option (list Moment.t))) :=
  video ← call (OpenVideo video_path) (VideoFileClip env video_path);
  let duration := clip_duration video in
  reply ← call (HighlightInference video_path) (highlights_reply env video_path);
  match reply with
  | Some parsed => mret parsed
  | None => mret (JObject (Some (mock_highlights duration)))
  end.

(** The body (prompt, removal of a code fence, [WEBVTT] header) only shapes
    the returned text. *)
Definition generate_subtitles (clip_path : string) : M string :=
  call (CaptionInference clip_path) (subtitles_reply env clip_path).

(** [f"{x}"] of an [Optional[str]] *)
Definition format_opt (x : option string) : string := default "None" x.

(** [item.get(key, default)] handed to a field of type [A]: [None] when
    pydantic rejects the value, which for such a field includes JSON null. *)
Definition required {A} (default : A) (x : json_field A) : option A :=
  match x with
  | Absent => Some default
  | Valid a => Some a
  | Null | Invalid => None
  end.

(** The same for a field of type [Optional[A]], which stores null as [None]. *)
Definition optional {A} (default : A) (x : json_field A) : option (option A) :=
  match x with
  | Absent => Some (Some default)
  | Valid a => Some (Some a)
  | Null => Some None
  | Invalid => None
  end.

Definition rejected {A} (name : string) (checked : option A) : list string :=
  match checked with
  | Some _ => []
  | None => [name]
  end.

(** [ContentPost(clip_id=..., title=..., ...)]: the fields are checked
    together and one [ValidationError] names those that were rejected. *)
Definition ContentPost_init (clip_id : string) (title caption platform : option string)
    (suggested_posting_date : option (option string)) (hashtags : option (list string))
    : exn + ContentPost.t :=
  match title, caption, platform, suggested_posting_date, hashtags with
  | Some t, Some c, Some p, Some d, Some h => inr (ContentPost.mk clip_id t c p d h)
  | _, _, _, _, _ =>
      inl (ValidationError
             (validation_message env "ContentPost"
                (rejected "title" title ++ rejected "caption" caption
                 ++ rejected "platform" platform
                 ++ rejected "suggested_posting_date" suggested_posting_date
                 ++ rejected "hashtags" hashtags)))
  end.

(** The loop over [enumerate(plan_items)] of the decoded branch.  An item
    that is not an object has no [.get]; an exception leaves the loop and the
    function, since the [except] clause lists neither [AttributeError] nor
    [ValidationError]. *)
Fixpoint parsed_posts (highlights : list HighlightClip.t) (h0 : HighlightClip.t)
    (i : nat) (plan_items : list (json_value PlanItem.t)) : exn + list ContentPost.t :=
  match plan_items with
  | [] => inr []
  | item :: rest =>
      if bool_decide (length highlights ≤ i) then inr []
      else
        (* in range by the test above *)
        let highlight := default h0 (highlights !! i) in
        match item with
        | JOther => inl (AttributeError "object has no attribute 'get'")
        | JObject item =>
            match
              ContentPost_init
                (HighlightClip.id highlight)
                (required (HighlightClip.title highlight) (PlanItem.title item))
                (required "Check out this highlight!" (PlanItem.caption item))
                (required "Instagram" (PlanItem.platform item))
                (optional (strftime_days_ahead env (i + 1))
                          (PlanItem.suggested_posting_date item))
                (required ["video"; "highlights"; "content"] (PlanItem.hashtags item))
            with
            | inl e => inl e
            | inr post =>
                match parsed_posts highlights h0 (S i) rest with
                | inl e => inl e
                | inr posts => inr (post :: posts)
                end
            end
        end
  end.

(** The loop over [enumerate(highlights)] of the [except] branch. *)
Fixpoint basic_posts (i : nat) (highlights : list HighlightClip.t) : list ContentPost.t :=
  match highlights with
  | [] => []
  | highlight :: rest =>
      ContentPost.mk
        (HighlightClip.id highlight)
        ("Highlight " +:+ pretty (i + 1) +:+ ": " +:+ HighlightClip.title highlight)
        ("Check out this amazing highlight from our video! "
           +:+ format_opt (HighlightClip.description highlight))
        (if bool_decide (i mod 2 = 0) then "Instagram" else "YouTube")
        (Some (strftime_days_ahead env (i + 1)))
        ["video"; "highlights"; "content"; "part" +:+ pretty (i + 1)]
      :: basic_posts (S i) rest
  end.

Definition generate_content_plan (highlights : list HighlightClip.t) : M ContentPlan.t :=
  match highlights with
  | [] => raise (ValueError "No highlights provided for content plan generation")
  | h0 :: _ =>
      reply ← call (ContentPlanInference highlights) (content_plan_reply env highlights);
      let plan_title :=
        "Content Plan for " +:+ pretty (length highlights) +:+ " Highlights" in
      match reply with
      | Some (JObject fields) =>
          let plan_items := default [] fields in
          match parsed_posts highlights h0 0 plan_items with
          | inl e => raise e
          | inr posts =>
              mret (ContentPlan.mk (HighlightClip.video_id h0) plan_title
                      (now_isoformat env) posts)
          end
      | Some JOther =>
          raise (AttributeError "object has no attribute 'get'")
      | None =>
          mret (ContentPlan.mk (HighlightClip.video_id h0) plan_title (now_isoformat env)
                  (basic_posts 0 highlights))
      end
  end.

(** ** main.py *)

(** [processing_status_db[video_id] = ProcessingStatus(video_id=..., status=...)] *)
Definition set_status (video_id status : string) : M unit :=
  modify (with_processing_status (<[video_id := ProcessingStatus.mk video_id status]>));;
  w ← get;
  emit (StatusWritten video_id status w).

(** [videos_db[video_id].field = value]: the subscript raises [KeyError]
    when the Job is not in the table. *)
Definition update_video (video_id : string) (f : VideoMetadata.t → VideoMetadata.t)
    : M unit :=
  w ← get;
  match videos_db w !! video_id with
  | None => raise (KeyError video_id)
  | Some v => modify (with_videos (<[video_id := f v]>))
  end.

(** [videos_db[video_id].processing_status = status] *)
Definition set_job_status (video_id status : string) : M unit :=
  update_video video_id (VideoMetadata.set_processing_status status);;
  emit (JobStatusWritten video_id status).

(** The body of [for i, highlight in enumerate(highlights)], lines 89-130. *)
Definition extract_highlight (video_id : string) (i : nat) (highlight : Moment.t)
    : M HighlightClip.t :=
  highlight_id ← uuid4;
  let clip_filename := video_id +:+ "_highlight_" +:+ pretty i +:+ ".mp4" in
  let clip_path := "clips/" +:+ clip_filename in
  let start_time := default 0%Q (Moment.start_time highlight) in
  let end_time := default 0%Q (Moment.end_time highlight) in
  extract_clip start_time end_time clip_path;;
  let thumbnail_filename := highlight_id +:+ ".jpg" in
  let thumbnail_path := "thumbnails/" +:+ thumbnail_filename in
  let thumbnail_time := (start_time + ((end_time - start_time) / 2))%Q in
  extract_thumbnail thumbnail_time thumbnail_path;;
  let subtitle_filename := highlight_id +:+ ".vtt" in
  let subtitle_path := "subtitles/" +:+ subtitle_filename in
  subtitles ← generate_subtitles clip_path;
  write_file subtitle_path;;
  let highlight_clip :=
    HighlightClip.mk highlight_id video_id
      (default ("Highlight " +:+ pretty (i + 1)) (Moment.title highlight))
      (Some (default "" (Moment.description highlight)))
      start_time end_time clip_path (Some subtitle_path) (Some thumbnail_path) in
  modify (with_highlights (<[highlight_id := highlight_clip]>));;
  mret highlight_clip.

Fixpoint extract_highlights (video_id : string) (i : nat) (highlights : list Moment.t)
    (highlight_clips : list HighlightClip.t) : M (list HighlightClip.t) :=
  match highlights with
  | [] => mret highlight_clips
  | highlight :: rest =>
      highlight_clip ← extract_highlight video_id i highlight;
      extract_highlights video_id (S i) rest (highlight_clips ++ [highlight_clip])
  end.

(** The [try] block of [process_video], lines 56-153. *)
Definition process_video_body (video_id file_path : string) : M unit :=
  set_status video_id "PROCESSING";;
  processor ← VideoProcessor file_path;
  update_video video_id (VideoMetadata.set_duration (Some (get_duration processor)));;
  update_video video_id (VideoMetadata.set_frames (Some (get_frame_count processor)));;
  set_job_status video_id "PROCESSING";;
  set_status video_id "ANALYZING";;
  analysis_result ← analyze_video file_path;
  set_status video_id "EXTRACTING_HIGHLIGHTS";;
  highlights ←
    match analysis_result with
    | JObject fields => mret (default [] fields)
    | JOther => raise (AttributeError "object has no attribute 'get'")
    end;
  highlight_clips ← extract_highlights video_id 0 highlights [];
  set_status video_id "GENERATING_CONTENT_PLAN";;
  content_plan ← generate_content_plan highlight_clips;
  modify (with_content_plans (<[video_id := content_plan]>));;
  let content_plan_filename := video_id +:+ "_content_plan.json" in
  let content_plan_path := "content_plans/" +:+ content_plan_filename in
  update_video video_id (VideoMetadata.set_content_plan_path (Some content_plan_path));;
  update_video video_id
    (VideoMetadata.set_highlights_count (Some (length highlight_clips)));;
  set_job_status video_id "COMPLETED";;
  set_status video_id "COMPLETED".

(** The [except Exception as e] block, lines 155-163. *)
Definition process_video_handler (video_id : string) (e : exn) : M unit :=
  set_job_status video_id "ERROR";;
  update_video video_id (VideoMetadata.set_error_message (Some (exn_str e)));;
  set_status video_id "ERROR".

Definition process_video (video_id file_path : string) : M unit :=
  try_except (process_video_body video_id file_path) (process_video_handler video_id).

Record UploadFile := mkUpload {
  content_type : option string;
  filename : string }.

Definition allowed_types : list string :=
  ["video/mp4"; "video/quicktime"; "video/x-msvideo"].

(** [file.content_type not in allowed_types] *)
Definition type_allowed (file : UploadFile) : bool :=
  match content_type file with
  | Some c => bool_decide (c ∈ allowed_types)
  | None => false
  end.

(** [upload_video] returns the metadata together with the arguments of the
    background task it scheduled. *)
Definition upload_video (file : UploadFile) (title : string) (description : option string)
    : M (VideoMetadata.t * (string * string)) :=
  if negb (type_allowed file)
  then raise (HTTPException 400
                "Invalid file type. Only MP4, MOV, and AVI files are supported.")
  else
    video_id ← uuid4;
    let file_path := "uploads/" +:+ video_id +:+ "_" +:+ filename file in
    write_file file_path;;
    let video_metadata :=
      VideoMetadata.mk video_id title description (filename file) file_path
        (default "" (content_type file)) (now_isoformat env) "PROCESSING"
        None None None None None in
    modify (with_videos (<[video_id := video_metadata]>));;
    mret (video_metadata, (video_id, file_path)).

End Program.

Definition get_processing_status (video_id : string) : M ProcessingStatus.t :=
  w ← get;
  match processing_status_db w !! video_id with
  | None => raise (HTTPException 404 "Video not found")
  | Some s => mret s
  end.

Definition get_video (video_id : string) : M VideoMetadata.t :=
  w ← get;
  match videos_db w !! video_id with
  | None => raise (HTTPException 404 "Video not found")
  | Some v => mret v
  end.

(** The values of a table; the order in which Python lists them (insertion
    order) is not represented. *)
Definition values {A} (m : gmap string A) : list A := (map_to_list m).*2.

Definition get_videos : M (list VideoMetadata.t) :=
  w ← get; mret (values (videos_db w)).

(** [[h for h in highlights_db.values() if h.video_id == video_id]] *)
Definition highlights_of (video_id : string) (w : World) : list HighlightClip.t :=
  filter (λ h, HighlightClip.video_id h = video_id) (values (highlights_db w)).

Definition get_highlights (video_id : string) : M (list HighlightClip.t) :=
  w ← get;
  match videos_db w !! video_id with
  | None => raise (HTTPException 404 "Video not found")
  | Some _ => mret (highlights_of video_id w)
  end.

Definition get_content_plan (video_id : string) : M ContentPlan.t :=
  w ← get;
  match videos_db w !! video_id with
  | None => raise (HTTPException 404 "Video not found")
  | Some _ =>
      match content_plans_db w !! video_id with
      | None => raise (HTTPException 404 "Content plan not found")
      | Some p => mret p
      end
  end.

(** [if os.path.exists(path): os.remove(path)] *)
Definition remove_if_exists (path : string) : M unit :=
  w ← get;
  if bool_decide (path ∈ files w)
  then modify (with_files (λ fs, fs ∖ {[path]}))
  else mret tt.

(** [if p and os.path.exists(p): os.remove(p)] for an optional path *)
Definition remove_optional (path : option string) : M unit :=
  match path with
  | Some p => if bool_decide (p = "") then mret tt else remove_if_exists p
  | None => mret tt
  end.

(** The body of [for highlight in highlights], lines 265-279. *)
Definition delete_highlight (highlight : HighlightClip.t) : M unit :=
  remove_if_exists (HighlightClip.clip_path highlight);;
  remove_optional (HighlightClip.thumbnail_path highlight);;
  remove_optional (HighlightClip.subtitle_path highlight);;
  modify (with_highlights (delete (HighlightClip.id highlight))).

Fixpoint delete_highlights (highlights : list HighlightClip.t) : M unit :=
  match highlights with
  | [] => mret tt
  | highlight :: rest => delete_highlight highlight;; delete_highlights rest
  end.

Definition delete_video (video_id : string) : M string :=
  w ← get;
  match videos_db w !! video_id with
  | None => raise (HTTPException 404 "Video not found")
  | Some video =>
      remove_if_exists (VideoMetadata.upload_path video);;
      delete_highlights (highlights_of video_id w);;
      modify (with_content_plans (delete video_id));;
      w' ← get;
      match videos_db w' !! video_id with
      | None => raise (KeyError video_id)
      | Some _ => modify (with_videos (delete video_id))
      end;;
      modify (with_processing_status (delete video_id));;
      mret "Video deleted successfully"
  end.

(** ** main.py, the publishing placeholders (lines 294-310) *)

Definition publish_to_youtube (clip_id : string) : M (string * string) :=
  w ← get;
  match highlights_db w !! clip_id with
  | None => raise (HTTPException 404 "Highlight clip not found")
  | Some _ => mret ("YouTube publishing feature coming soon", "pending")
  end.

Definition publish_to_instagram (clip_id : string) : M (string * string) :=
  w ← get;
  match highlights_db w !! clip_id with
  | None => raise (HTTPException 404 "Highlight clip not found")
  | Some _ => mret ("Instagram publishing feature coming soon", "pending")
  end.

(** ** ai_analyzer.py, the handling of the response text

    Python's string operations on the response: [sub in s], [s.split(sep)]
    for a non-empty separator (pieces between the occurrences found from
    left to right, never overlapping), and [s.startswith(p)].  What
    [s.strip()] removes depends on the character set, so it is a parameter
    of the functions below. *)

Fixpoint contains (sub s : string) : bool :=
  String.prefix sub s
  || match s with
     | String _ s' => contains sub s'
     | EmptyString => false
     end.

(** [skip] characters of the separator just found are still to be passed
    over; [acc] is the piece read so far. *)
Fixpoint split_go (sep : string) (skip : nat) (acc : string) (s : string) : list string :=
  match s with
  | EmptyString => [acc]
  | String c s' =>
      match skip with
      | S k => split_go sep k acc s'
      | 0 =>
          if String.prefix sep s
          then acc :: split_go sep (String.length sep - 1) "" s'
          else split_go sep 0 (acc +:+ String c "") s'
      end
  end.

Definition split (sep s : string) : list string := split_go sep 0 "" s.

Definition newline : string := String (Ascii.ascii_of_nat 10) "".

(** A subscript out of range. *)
Inductive IndexError := list_index_out_of_range.

(** [l[i]] *)
Definition subscript {A} (l : list A) (i : nat) : IndexError + A :=
  match l !! i with
  | Some x => inr x
  | None => inl list_index_out_of_range
  end.

(** [generate_subtitles], lines 196-206: the text returned for the text of
    the response. *)
Definition subtitles_text (strip : string → string) (text : string) : IndexError + string :=
  match
    (if contains "```" text
     then match subscript (split "```" text) 1 with
          | inr part => inr (strip part)
          | inl e => inl e
          end
     else inr text)
  with
  | inr subtitles =>
      inr (if String.prefix "WEBVTT" subtitles
           then subtitles
           else "WEBVTT" +:+ newline +:+ newline +:+ subtitles)
  | inl e => inl e
  end.

(** [analyze_video], lines 112-122, and [generate_content_plan], lines
    267-278: the text handed to [json.loads] for the text of the response. *)
Definition json_source (strip : string → string) (response_text : string)
    : IndexError + string :=
  if contains "```json" response_text then
    match subscript (split "```json" response_text) 1 with
    | inr part =>
        match subscript (split "```" part) 0 with
        | inr json_content => inr (strip json_content)
        | inl e => inl e
        end
    | inl e => inl e
    end
  else if contains "```" response_text then
    match subscript (split "```" response_text) 1 with
    | inr part =>
        match subscript (split "```" part) 0 with
        | inr json_content => inr (strip json_content)
        | inl e => inl e
        end
    | inl e => inl e
    end
  else inr response_text.

(** * Specification vocabulary *)

(** [wp m Q w]: running [m] from [w] ends in a result, a state and a trace
    that satisfy [Q]. *)
Definition wp {A} (m : M A) (Q : exn + A → World → list Event → Prop) (w : World) : Prop :=
  Q (result_of (m w)) (world_of (m w)) (events_of (m w)).

(** A call to a collaborator, other than content-plan inference on an empty
    highlight list. *)
Definition is_call (ev : Event) : Prop :=
  match ev with
  | Called (ContentPlanInference []) => False
  | Called _ => True
  | _ => False
  end.

(** The calls of a trace, oldest first. *)
Definition calls_of (t : list Event) : list capability_call :=
  omap (λ ev, match ev with Called c => Some c | _ => None end) t.

(** The stage tags written to [processing_status_db[video_id]], oldest first. *)
Definition record_writes (video_id : string) (t : list Event) : list string :=
  omap (λ ev, match ev with
              | StatusWritten v s _ => if bool_decide (v = video_id) then Some s else None
              | _ => None
              end) t.

(** The values assigned to the Job's own [processing_status], oldest first. *)
Definition job_writes (video_id : string) (t : list Event) : list string :=
  omap (λ ev, match ev with
              | JobStatusWritten v s => if bool_decide (v = video_id) then Some s else None
              | _ => None
              end) t.

(** [quiet m]: whatever [m] does, it ends with [videos_db] and
    [processing_status_db] as it found them and its trace holds calls only. *)
Definition quiet {A} (m : M A) : Prop :=
  ∀ w, wp m (λ _ w' t, videos_db w' = videos_db w
                        ∧ processing_status_db w' = processing_status_db w
                        ∧ Forall is_call t) w.

(** [emits P m]: every event of every run of [m] satisfies [P]. *)
Definition emits {A} (P : Event → Prop) (m : M A) : Prop :=
  ∀ w, Forall P (events_of (m w)).

(** [preserves I m]: a run of [m] from a state in [I] ends in [I], whether it
    returns or raises. *)
Definition preserves {A} (I : World → Prop) (m : M A) : Prop :=
  ∀ w, I w → I (world_of (m w)).

(** The two status stores, as a client reads them. *)
Definition job_status (video_id : string) (w : World) : option string :=
  VideoMetadata.processing_status <$> videos_db w !! video_id.

Definition record_status (video_id : string) (w : World) : option string :=
  ProcessingStatus.status <$> processing_status_db w !! video_id.

(** For every write of a stage tag to [processing_status_db[video_id]]: the
    tag written, and what the Job's own field and the status record hold
    right after the write. *)
Definition snapshots (video_id : string) (t : list Event)
    : list (string * option string * option string) :=
  omap (λ ev, match ev with
              | StatusWritten v s w' =>
                  if bool_decide (v = video_id)
                  then Some (s, job_status v w', record_status v w')
                  else None
              | _ => None
              end) t.

(** What the [try] block leaves in [snapshots] when it got as far as the
    [k]-th stage write, the Job's field starting at [js0]. *)
Definition stage_snapshots (js0 : string) (k : nat)
    : list (string * option string * option string) :=
  take k [ ("PROCESSING", Some js0, Some "PROCESSING");
           ("ANALYZING", Some "PROCESSING", Some "ANALYZING");
           ("EXTRACTING_HIGHLIGHTS", Some "PROCESSING", Some "EXTRACTING_HIGHLIGHTS");
           ("GENERATING_CONTENT_PLAN", Some "PROCESSING", Some "GENERATING_CONTENT_PLAN");
           ("COMPLETED", Some "COMPLETED", Some "COMPLETED") ].

Definition stage_job_writes (k : nat) : list string :=
  match k with
  | 0 | 1 => []
  | 2 | 3 | 4 => ["PROCESSING"]
  | _ => ["PROCESSING"; "COMPLETED"]
  end.

Definition body_post (vid js0 : string) (r : exn + ()) (w' : World) (t : list Event) : Prop :=
  is_Some (videos_db w' !! vid) ∧
  ∃ k, 1 ≤ k ≤ 5 ∧
       snapshots vid t = stage_snapshots js0 k ∧
       job_writes vid t = stage_job_writes k ∧
       match r with
       | inr _ => k = 5 ∧ job_status vid w' = Some "COMPLETED"
                  ∧ record_status vid w' = Some "COMPLETED"
       | inl _ => k < 5
       end.

(** The same for the whole task: the stages up to the [k]-th, then [ERROR]
    unless all five were written. *)
Definition run_snapshots (js0 : string) (k : nat)
    : list (string * option string * option string) :=
  if bool_decide (k = 5) then stage_snapshots js0 5
  else stage_snapshots js0 k ++ [("ERROR", Some "ERROR", Some "ERROR")].

Definition run_job_writes (k : nat) : list string :=
  if bool_decide (k = 5) then stage_job_writes 5 else stage_job_writes k ++ ["ERROR"].

(** ** The stage order *)







(** The value the Job's own field shows while the status record shows [s]
    (the comments on the two fields in [models.py]). *)
Definition coarse (s : string) : string :=
  if bool_decide (s ∈ ["ANALYZING"; "EXTRACTING_HIGHLIGHTS"; "GENERATING_CONTENT_PLAN"])
  then "PROCESSING" else s.

(** ** Registry invariant: a Highlight is stored under its own identifier. *)
Definition keyed_by_id (w : World) : Prop :=
  map_Forall (λ k h, HighlightClip.id h = k) (highlights_db w).

(** The four tables of [w'] are those of [w]. *)
Definition same_tables (w w' : World) : Prop :=
  videos_db w' = videos_db w ∧ highlights_db w' = highlights_db w
  ∧ content_plans_db w' = content_plans_db w
  ∧ processing_status_db w' = processing_status_db w.

(** [highlights_db] once every Highlight of [hs] was deleted from it. *)
Definition without_highlights (hs : list HighlightClip.t)
    (m : gmap string HighlightClip.t) : gmap string HighlightClip.t :=
  foldl (λ m h, delete (HighlightClip.id h) m) m hs.

(** ** Scenarios

    A 30-second source for which highlight inference answers the two
    intervals (2, 10) and (25, 40); every collaborator succeeds.  The
    content-plan reply of [scenario] decodes to a single item, that of
    [scenario_undecodable] does not decode. *)

Definition two_moments : list Moment.t :=
  [ Moment.mk (Some 2%Q) (Some 10%Q) (Some "Intro") (Some "first");
    Moment.mk (Some 25%Q) (Some 40%Q) None (Some "second") ].

Definition scenario_with
    (highlights : string → exn + option (json_value (option (list Moment.t))))
    (write_video : Q → Q → string → exn + unit)
    (plan : list HighlightClip.t
            → exn + option (json_value (option (list (json_value PlanItem.t)))))
    : Env :=
  mkEnv (λ n, "id" +:+ pretty n) "2025-01-01T00:00:00" (λ n, "day+" +:+ pretty n)
        (λ _, 1 # 2) (λ _, inr (mk_clip 30 25))
        write_video (λ _ _, inr ()) (λ _, inr ()) (λ _, inr ()) (λ _, inr "WEBVTT")
        highlights plan
        (λ model _, "validation error for " +:+ model).

Definition one_item : list (json_value PlanItem.t) :=
  [ JObject (PlanItem.mk (Valid "Watch this") Absent (Valid "TikTok") Absent Absent) ].

Definition scenario : Env :=
  scenario_with (λ _, inr (Some (JObject (Some two_moments))))
                (λ _ _ _, inr ())
                (λ _, inr (Some (JObject (Some one_item)))).

Definition scenario_undecodable : Env :=
  scenario_with (λ _, inr (Some (JObject (Some two_moments))))
                (λ _ _ _, inr ())
                (λ _, inr None).

(** Highlight inference fails. *)
Definition scenario_inference_down : Env :=
  scenario_with (λ _, inl (CapabilityError "inference unavailable"))
                (λ _ _ _, inr ())
                (λ _, inr None).

(** Cutting a clip fails. *)
Definition scenario_cut_fails : Env :=
  scenario_with (λ _, inr (Some (JObject (Some two_moments))))
                (λ _ _ _, inl (CapabilityError "encoder failed"))
                (λ _, inr None).

(** Highlight inference answers an object without moments. *)
Definition scenario_no_moments : Env :=
  scenario_with (λ _, inr (Some (JObject (Some []))))
                (λ _ _ _, inr ())
                (λ _, inr None).

Definition mp4_upload : UploadFile := mkUpload (Some "video/mp4") "talk.mp4".
Definition png_upload : UploadFile := mkUpload (Some "image/png") "logo.png".

(** The state right after the first submission, and after its background
    task ran. *)
Definition uploaded : World :=
  world_of (upload_video scenario mp4_upload "Talk" None empty_world).

Definition processed : World :=
  world_of (process_video scenario "id0" "uploads/id0_talk.mp4" uploaded).

(** An end offset clamped to the source duration, the way the fabricated
    highlights of [analyze_video] are, and the midpoint of the clamped
    interval. *)
Definition clamp_end (end_time duration : Q) : Q :=
  if Qlt_le_dec duration end_time then duration else end_time.

Definition clamped_midpoint (start_time end_time duration : Q) : Q :=
  (start_time + (clamp_end end_time duration - start_time) / 2)%Q.

(** The two Highlights the scenario run registers. *)
Definition two_clips : list HighlightClip.t :=
  [ HighlightClip.mk "id1" "id0" "Intro" (Some "first") 2 10
      "clips/id0_highlight_0.mp4" (Some "subtitles/id1.vtt") (Some "thumbnails/id1.jpg");
    HighlightClip.mk "id2" "id0" "Highlight 2" (Some "second") 25 40
      "clips/id0_highlight_1.mp4" (Some "subtitles/id2.vtt") (Some "thumbnails/id2.jpg") ].

(** The post the [except] branch of [generate_content_plan] writes for the
    Highlight at index [i]. *)
Definition basic_post (env : Env) (i : nat) (highlight : HighlightClip.t) : ContentPost.t :=
  ContentPost.mk
    (HighlightClip.id highlight)
    ("Highlight " +:+ pretty (i + 1) +:+ ": " +:+ HighlightClip.title highlight)
    ("Check out this amazing highlight from our video! "
       +:+ format_opt (HighlightClip.description highlight))
    (if bool_decide (i mod 2 = 0) then "Instagram" else "YouTube")
    (Some (strftime_days_ahead env (i + 1)))
    ["video"; "highlights"; "content"; "part" +:+ pretty (i + 1)].

(** [s] holds no character [c]. *)
Fixpoint lacks (c : Ascii.ascii) (s : string) : bool :=
  match s with
  | EmptyString => true
  | String x s' => negb (Ascii.eqb x c) && lacks c s'
  end.

Definition backtick : Ascii.ascii := "`"%char.

(** ** Vocabulary for the orchestrator's frame and outcome *)

(** Every Job other than [vid] has in [w] the entry, the ContentPlan and the
    status record it has in [w0]. *)
Definition others_untouched (vid : string) (w0 w : World) : Prop :=
  ∀ other, other ≠ vid →
    videos_db w !! other = videos_db w0 !! other
    ∧ content_plans_db w !! other = content_plans_db w0 !! other
    ∧ processing_status_db w !! other = processing_status_db w0 !! other.

(** [highlights_db] of [w] keeps every key of [w0], and an entry of [w] is
    the one of [w0] or a Highlight owned by [vid] stored under its own
    identifier. *)
Definition highlights_grow (vid : string) (w0 w : World) : Prop :=
  ∀ k,
    (is_Some (highlights_db w0 !! k) → is_Some (highlights_db w !! k))
    ∧ (∀ h, highlights_db w !! k = Some h →
            highlights_db w0 !! k = Some h
            ∨ (HighlightClip.video_id h = vid ∧ HighlightClip.id h = k)).

(** The three tables keyed by Job identifier are those of [w0]. *)
Definition job_tables_of (w0 w : World) : Prop :=
  videos_db w = videos_db w0
  ∧ content_plans_db w = content_plans_db w0
  ∧ processing_status_db w = processing_status_db w0.

(** The path [process_video] records on a completed Job. *)
Definition plan_path (vid : string) : string :=
  "content_plans/" +:+ vid +:+ "_content_plan.json".

(** How a run of [process_video] from [w] for the Job [vid], registered as
    [v], can have ended in [w']: completed, with the metadata filled in and
    a ContentPlan stored, or failed, with the message recorded and the
    ContentPlans as they were. *)
Definition run_outcome (vid : string) (v : VideoMetadata.t) (w w' : World) : Prop :=
  (∃ clip n plan,
      videos_db w' !! vid
      = Some (VideoMetadata.set_processing_status "COMPLETED"
                (VideoMetadata.set_highlights_count (Some n)
                   (VideoMetadata.set_content_plan_path (Some (plan_path vid))
                      (VideoMetadata.set_processing_status "PROCESSING"
                         (VideoMetadata.set_frames (Some (get_frame_count clip))
                            (VideoMetadata.set_duration (Some (get_duration clip)) v))))))
      ∧ 1 ≤ n
      ∧ content_plans_db w' !! vid = Some plan
      ∧ ContentPlan.video_id plan = vid
      ∧ length (ContentPlan.posts plan) ≤ n)
  ∨ (∃ e v0,
        videos_db w' !! vid
        = Some (VideoMetadata.set_error_message (Some (exn_str e))
                  (VideoMetadata.set_processing_status "ERROR" v0))
        ∧ (v0 = v
           ∨ ∃ clip,
               v0 = VideoMetadata.set_processing_status "PROCESSING"
                      (VideoMetadata.set_frames (Some (get_frame_count clip))
                         (VideoMetadata.set_duration (Some (get_duration clip)) v)))
        ∧ content_plans_db w' = content_plans_db w).

(** The files a Job and its Highlights refer to, as [delete_video] sees them
    (an empty optional path is skipped). *)
Definition optional_path (p : option string) : gset string :=
  match p with
  | Some s => if bool_decide (s = "") then ∅ else {[s]}
  | None => ∅
  end.

Definition highlight_files (h : HighlightClip.t) : gset string :=
  {[HighlightClip.clip_path h]}
  ∪ optional_path (HighlightClip.thumbnail_path h)
  ∪ optional_path (HighlightClip.subtitle_path h).

Definition artifacts (video : VideoMetadata.t) (hs : list HighlightClip.t) : gset string :=
  {[VideoMetadata.upload_path video]} ∪ ⋃ (highlight_files <$> hs).

(** A run in which files can be created but nothing can be written to
    them, and one in which no file can be created. *)
Definition scenario_disk_full : Env :=
  mkEnv (λ n, "id" +:+ pretty n) "2025-01-01T00:00:00" (λ n, "day+" +:+ pretty n)
        (λ _, 1 # 2) (λ _, inr (mk_clip 30 25))
        (λ _ _ _, inr ()) (λ _ _, inr ())
        (λ _, inr ())
        (λ _, inl (CapabilityError "No space left on device"))
        (λ _, inr "WEBVTT")
        (λ _, inr (Some (JObject (Some two_moments))))
        (λ _, inr None)
        (λ model _, "validation error for " +:+ model).

Definition scenario_read_only : Env :=
  mkEnv (λ n, "id" +:+ pretty n) "2025-01-01T00:00:00" (λ n, "day+" +:+ pretty n)
        (λ _, 1 # 2) (λ _, inr (mk_clip 30 25))
        (λ _ _ _, inr ()) (λ _ _, inr ())
        (λ _, inl (CapabilityError "Read-only file system"))
        (λ _, inr ())
        (λ _, inr "WEBVTT")
        (λ _, inr (Some (JObject (Some two_moments))))
        (λ _, inr None)
        (λ model _, "validation error for " +:+ model).

(** The state after a second submission was processed as well: two Jobs,
    [id0] and [id3], with two Highlights each. *)
Definition two_jobs : World :=
  world_of (process_video scenario "id3" "uploads/id3_talk.mp4"
              (world_of (upload_video scenario mp4_upload "Second talk" None processed))).

(** Whether the planner's [ContentPost] accepts what an item of the reply
    gives it. *)
Definition accepts_required {A} (x : json_field A) : bool :=
  match x with
  | Absent | Valid _ => true
  | Null | Invalid => false
  end.

Definition accepts_optional {A} (x : json_field A) : bool :=
  match x with
  | Invalid => false
  | _ => true
  end.

Definition accepted (item : json_value PlanItem.t) : bool :=
  match item with
  | JObject fields =>
      accepts_required (PlanItem.title fields)
      && accepts_required (PlanItem.caption fields)
      && accepts_required (PlanItem.platform fields)
      && accepts_optional (PlanItem.suggested_posting_date fields)
      && accepts_required (PlanItem.hashtags fields)
  | JOther => false
  end.

(** An item whose title is JSON null, and one that only nulls its date. *)
Definition null_title_item : json_value PlanItem.t :=
  JObject (PlanItem.mk Null Absent Absent Absent Absent).

Definition null_date_item : json_value PlanItem.t :=
  JObject (PlanItem.mk (Valid "Watch this") Absent Absent Null Absent).

(** * Reasoning about computations

[wp m Q w]: running [m] from [w] ends in a result, a state and a trace
    that satisfy [Q].  The rules below walk through a computation one
    statement at a time. *)

Section Rules.
Context {A B : Type}.
Implicit Types (Q : exn + A → World → list Event → Prop).

Lemma wp_ret (a : A) Q w : Q (inr a) w [] → wp (mret a) Q w.
Proof. done. Qed.

Lemma wp_raise (e : exn) Q w : Q (inl e) w [] → wp (raise e) Q w.
Proof. done. Qed.

Lemma wp_bind (m : M B) (k : B → M A) Q w :
  wp m (λ r w1 t1,
          match r with
          | inl e => Q (inl e) w1 t1
          | inr b => wp (k b) (λ r2 w2 t2, Q r2 w2 (t1 ++ t2)) w1
          end) w →
  wp (m ≫= k) Q w.
Proof.
  unfold wp, mbind, M_bind, bind, result_of, world_of, events_of.
  destruct (m w) as [[[e | b] w1] t1]; simpl; [done |].
  by destruct (k b w1) as [[r w2] t2].
Qed.

Lemma wp_try (body : M A) (handler : exn → M A) Q w :
  wp body (λ r w1 t1,
             match r with
             | inl e => wp (handler e) (λ r2 w2 t2, Q r2 w2 (t1 ++ t2)) w1
             | inr a => Q (inr a) w1 t1
             end) w →
  wp (try_except body handler) Q w.
Proof.
  unfold wp, try_except, result_of, world_of, events_of.
  destruct (body w) as [[[e | a] w1] t1]; simpl; [| done].
  by destruct (handler e w1) as [[r w2] t2].
Qed.

Lemma wp_mono (m : M A) Q Q' w :
  (∀ r w' t, Q r w' t → Q' r w' t) → wp m Q w → wp m Q' w.
Proof. unfold wp. auto. Qed.

Lemma wp_call (c : capability_call) (outcome : exn + A) Q w :
  Q outcome w [Called c] → wp (call c outcome) Q w.
Proof. unfold wp, call. by destruct outcome. Qed.
End Rules.

Lemma wp_get {A} (k : World → M A) Q w : wp (k w) Q w → wp (get ≫= k) Q w.
Proof. intros H. apply wp_bind. exact H. Qed.

Lemma wp_modify (f : World → World) (Q : exn + () → World → list Event → Prop) w :
  Q (inr ()) (f w) [] → wp (modify f) Q w.
Proof. done. Qed.

Lemma wp_emit (ev : Event) (Q : exn + () → World → list Event → Prop) w :
  Q (inr ()) w [ev] → wp (emit ev) Q w.
Proof. done. Qed.

Lemma record_writes_app v t1 t2 :
  record_writes v (t1 ++ t2) = record_writes v t1 ++ record_writes v t2.
Proof. apply omap_app. Qed.

Lemma job_writes_app v t1 t2 :
  job_writes v (t1 ++ t2) = job_writes v t1 ++ job_writes v t2.
Proof. apply omap_app. Qed.

Lemma record_writes_calls v t : Forall is_call t → record_writes v t = [].
Proof.
  induction 1 as [| ev t Hev _ IH]; [done |].
  destruct ev; simpl in *; try done.
Qed.

Lemma job_writes_calls v t : Forall is_call t → job_writes v t = [].
Proof.
  induction 1 as [| ev t Hev _ IH]; [done |].
  destruct ev; simpl in *; try done.
Qed.

(** ** Computations that leave both status stores alone

[quiet m]: whatever [m] does, it ends with [videos_db] and
    [processing_status_db] as it found them and its trace holds calls only. *)

Lemma quiet_ret {A} (a : A) : quiet (mret a).
Proof. intros w. apply wp_ret. auto. Qed.

Lemma quiet_raise {A} (e : exn) : quiet (raise e : M A).
Proof. intros w. apply wp_raise. auto. Qed.

Lemma quiet_bind {A B} (m : M A) (k : A → M B) :
  quiet m → (∀ a, quiet (k a)) → quiet (m ≫= k).
Proof.
  intros Hm Hk w. apply wp_bind. eapply wp_mono; [| apply Hm].
  intros [e | a] w1 t1 (Hv & Hp & Ht); [done |].
  eapply wp_mono; [| apply Hk]. simpl.
  intros r w2 t2 (Hv2 & Hp2 & Ht2). rewrite Hv2, Hp2, Forall_app. auto.
Qed.

Lemma quiet_call {A} c (outcome : exn + A) : is_call (Called c) → quiet (call c outcome).
Proof. intros Hc w. apply wp_call. split_and!; auto. Qed.

Lemma quiet_get {A} (k : World → M A) : (∀ w, quiet (k w)) → quiet (get ≫= k).
Proof. intros Hk w. apply wp_get, Hk. Qed.

Lemma quiet_with_files f : quiet (modify (with_files f)).
Proof. intros w. apply wp_modify. auto. Qed.

Lemma quiet_with_highlights f : quiet (modify (with_highlights f)).
Proof. intros w. apply wp_modify. auto. Qed.

Lemma quiet_with_content_plans f : quiet (modify (with_content_plans f)).
Proof. intros w. apply wp_modify. auto. Qed.

Create HintDb quiet.
#[export] Hint Resolve quiet_ret quiet_raise quiet_call quiet_with_files
  quiet_with_highlights quiet_with_content_plans : quiet.
#[export] Hint Extern 1 (is_call _) => exact I : quiet.

Ltac quiet_steps :=
  repeat first
    [ progress auto with quiet
    | apply quiet_get; intros ?
    | apply quiet_bind; [| intros ?]
    | match goal with
      | |- quiet (if ?b then _ else _) => destruct b
      | |- quiet (match ?x with _ => _ end) => destruct x
      end ].

Section QuietProgram.
Context (env : Env).

Lemma quiet_uuid4 : quiet (uuid4 env).
Proof.
  unfold uuid4. apply quiet_get; intros w0. apply quiet_bind; [| auto with quiet].
  intros w. apply wp_modify. auto.
Qed.

Lemma quiet_write_file path : quiet (write_file env path).
Proof. unfold write_file. quiet_steps. Qed.

Lemma quiet_VideoProcessor path : quiet (VideoProcessor env path).
Proof. unfold VideoProcessor. quiet_steps. Qed.

Lemma quiet_extract_clip s e path : quiet (extract_clip env s e path).
Proof. unfold extract_clip. quiet_steps. Qed.

Lemma quiet_extract_thumbnail s path : quiet (extract_thumbnail env s path).
Proof. unfold extract_thumbnail. quiet_steps. Qed.

Lemma quiet_analyze_video path : quiet (analyze_video env path).
Proof. unfold analyze_video. quiet_steps. Qed.

Lemma quiet_generate_subtitles path : quiet (generate_subtitles env path).
Proof. unfold generate_subtitles. quiet_steps. Qed.

Lemma quiet_generate_content_plan hs : quiet (generate_content_plan env hs).
Proof. unfold generate_content_plan. quiet_steps. Qed.

#[local] Hint Resolve quiet_uuid4 quiet_write_file quiet_extract_clip
  quiet_extract_thumbnail quiet_generate_subtitles : quiet.

Lemma quiet_extract_highlight vid i h : quiet (extract_highlight env vid i h).
Proof. unfold extract_highlight. quiet_steps. Qed.

Lemma quiet_extract_highlights vid hs : ∀ i acc, quiet (extract_highlights env vid i hs acc).
Proof.
  induction hs as [| h hs IH]; intros i acc; simpl.
  - auto with quiet.
  - apply quiet_bind; [apply quiet_extract_highlight | intros ?; apply IH].
Qed.
End QuietProgram.

Lemma snapshots_app v t1 t2 : snapshots v (t1 ++ t2) = snapshots v t1 ++ snapshots v t2.
Proof. apply omap_app. Qed.

Lemma snapshots_calls v t : Forall is_call t → snapshots v t = [].
Proof.
  induction 1 as [| ev t Hev _ IH]; [done |].
  destruct ev; simpl in *; try done.
Qed.

Lemma snapshots_cons_written v s w t :
  snapshots v (StatusWritten v s w :: t)
  = (s, job_status v w, record_status v w) :: snapshots v t.
Proof. unfold snapshots. simpl. by rewrite bool_decide_true. Qed.

Lemma snapshots_cons_job v v' s t :
  snapshots v (JobStatusWritten v' s :: t) = snapshots v t.
Proof. done. Qed.

Lemma job_writes_cons_written v v' s w t :
  job_writes v (StatusWritten v' s w :: t) = job_writes v t.
Proof. done. Qed.

Lemma job_writes_cons_job v s t :
  job_writes v (JobStatusWritten v s :: t) = s :: job_writes v t.
Proof. unfold job_writes. simpl. by rewrite bool_decide_true. Qed.


(** ** Rules for the statements of [process_video] *)

Lemma wp_set_status vid s (Q : exn + () → World → list Event → Prop) w :
  (∀ w', videos_db w' = videos_db w →
         record_status vid w' = Some s →
         Q (inr ()) w' [StatusWritten vid s w']) →
  wp (set_status vid s) Q w.
Proof.
  intros H. unfold set_status. apply wp_bind, wp_modify. simpl.
  apply wp_get, wp_emit. simpl. apply H; [done |].
  unfold record_status. simpl. by rewrite lookup_insert_eq.
Qed.

Lemma wp_update_video vid f v (Q : exn + () → World → list Event → Prop) w :
  videos_db w !! vid = Some v →
  (∀ w', videos_db w' !! vid = Some (f v) → Q (inr ()) w' []) →
  wp (update_video vid f) Q w.
Proof.
  intros Hv H. unfold update_video. apply wp_get. rewrite Hv.
  apply wp_modify, H. simpl. by rewrite lookup_insert_eq.
Qed.

Lemma wp_set_job_status vid s v (Q : exn + () → World → list Event → Prop) w :
  videos_db w !! vid = Some v →
  (∀ w', videos_db w' !! vid = Some (VideoMetadata.set_processing_status s v) →
         Q (inr ()) w' [JobStatusWritten vid s]) →
  wp (set_job_status vid s) Q w.
Proof.
  intros Hv H. unfold set_job_status. apply wp_bind.
  eapply wp_update_video; [done |]. intros w' Hw'. apply wp_emit. simpl. by apply H.
Qed.

Lemma wp_quiet {A} (m : M A) (Q : exn + A → World → list Event → Prop) w :
  quiet m →
  (∀ r w' t, videos_db w' = videos_db w → Forall is_call t → Q r w' t) →
  wp m Q w.
Proof.
  intros Hm H. eapply wp_mono; [| apply Hm]. simpl. intros r w' t (? & _ & ?). auto.
Qed.

Ltac trace_simpl :=
  repeat first
    [ rewrite snapshots_app | rewrite job_writes_app
    | rewrite snapshots_cons_written | rewrite snapshots_cons_job
    | rewrite job_writes_cons_written | rewrite job_writes_cons_job
    | match goal with
      | H : Forall is_call ?t |- _ =>
          first [ rewrite (snapshots_calls _ t H) | rewrite (job_writes_calls _ t H) ]
      end ];
  simpl.

Section Orchestrator.
Context (env : Env).

Lemma process_video_body_spec vid path w v :
  videos_db w !! vid = Some v →
  wp (process_video_body env vid path)
     (body_post vid (VideoMetadata.processing_status v)) w.
Proof.
  intros Hv. unfold process_video_body.
  apply wp_bind, wp_set_status. intros w1 E1 R1.
  assert (J1 : job_status vid w1 = Some (VideoMetadata.processing_status v))
    by (unfold job_status; by rewrite E1, Hv).
  rewrite <- E1 in Hv. clear E1.
  apply wp_bind, wp_quiet; [apply quiet_VideoProcessor |].
  intros [e | processor] w2 t2 E2 C2.
  { split; [rewrite E2; eauto |]. exists 1. trace_simpl. rewrite J1, R1. split_and!; auto. }
  rewrite <- E2 in Hv. clear E2.
  apply wp_bind. eapply wp_update_video; [done |]. clear Hv. intros w3 Hv.
  apply wp_bind. eapply wp_update_video; [done |]. clear Hv. intros w4 Hv.
  apply wp_bind. eapply wp_set_job_status; [done |]. clear Hv. intros w5 Hv.
  apply wp_bind, wp_set_status. intros w6 E6 R6.
  assert (J6 : job_status vid w6 = Some "PROCESSING")
    by (unfold job_status; by rewrite E6, Hv).
  rewrite <- E6 in Hv. clear E6.
  apply wp_bind, wp_quiet; [apply quiet_analyze_video |].
  intros [e | analysis_result] w7 t7 E7 C7.
  { split; [rewrite E7; eauto |]. exists 2. trace_simpl. rewrite J1, R1, J6, R6.
    split_and!; auto. }
  rewrite <- E7 in Hv. clear E7.
  apply wp_bind, wp_set_status. intros w8 E8 R8.
  assert (J8 : job_status vid w8 = Some "PROCESSING")
    by (unfold job_status; by rewrite E8, Hv).
  rewrite <- E8 in Hv. clear E8.
  apply wp_bind.
  destruct analysis_result as [fields |]; [apply wp_ret | apply wp_raise].
  2: { split; [eauto |]. exists 3. trace_simpl. rewrite J1, R1, J6, R6, J8, R8.
       split_and!; auto. }
  apply wp_bind, wp_quiet; [apply quiet_extract_highlights |].
  intros [e | highlight_clips] w9 t9 E9 C9.
  { split; [rewrite E9; eauto |]. exists 3. trace_simpl. rewrite J1, R1, J6, R6, J8, R8.
    split_and!; auto. }
  rewrite <- E9 in Hv. clear E9.
  apply wp_bind, wp_set_status. intros w10 E10 R10.
  assert (J10 : job_status vid w10 = Some "PROCESSING")
    by (unfold job_status; by rewrite E10, Hv).
  rewrite <- E10 in Hv. clear E10.
  apply wp_bind, wp_quiet; [apply quiet_generate_content_plan |].
  intros [e | content_plan] w11 t11 E11 C11.
  { split; [rewrite E11; eauto |]. exists 4. trace_simpl.
    rewrite J1, R1, J6, R6, J8, R8, J10, R10. split_and!; auto. }
  rewrite <- E11 in Hv. clear E11.
  apply wp_bind, wp_modify. simpl.
  apply wp_bind. eapply wp_update_video; [done |]. clear Hv. intros w12 Hv.
  apply wp_bind. eapply wp_update_video; [done |]. clear Hv. intros w13 Hv.
  apply wp_bind. eapply wp_set_job_status; [done |]. clear Hv. intros w14 Hv.
  apply wp_set_status. intros w15 E15 R15.
  assert (J15 : job_status vid w15 = Some "COMPLETED")
    by (unfold job_status; by rewrite E15, Hv).
  split; [rewrite E15; eauto |]. exists 5. trace_simpl.
  rewrite J1, R1, J6, R6, J8, R8, J10, R10, J15, R15. split_and!; auto.
Qed.

Lemma process_video_handler_spec vid e w v
    (Q : exn + () → World → list Event → Prop) :
  videos_db w !! vid = Some v →
  (∀ w', job_status vid w' = Some "ERROR" →
         record_status vid w' = Some "ERROR" →
         VideoMetadata.error_message <$> videos_db w' !! vid = Some (Some (exn_str e)) →
         Q (inr ()) w' [JobStatusWritten vid "ERROR"; StatusWritten vid "ERROR" w']) →
  wp (process_video_handler vid e) Q w.
Proof.
  intros Hv H. unfold process_video_handler.
  apply wp_bind. eapply wp_set_job_status; [done |]. clear Hv. intros w1 Hv.
  apply wp_bind. eapply wp_update_video; [done |]. clear Hv. intros w2 Hv.
  apply wp_set_status. intros w3 E3 R3. simpl.
  apply H; [| done |]; unfold job_status; by rewrite E3, Hv.
Qed.

Lemma process_video_spec vid path w v :
  videos_db w !! vid = Some v →
  let run := process_video env vid path w in
  result_of run = inr () ∧
  ∃ k, 1 ≤ k ≤ 5 ∧
       snapshots vid (events_of run) = run_snapshots (VideoMetadata.processing_status v) k ∧
       job_writes vid (events_of run) = run_job_writes k ∧
       job_status vid (world_of run) = Some (if bool_decide (k = 5) then "COMPLETED" else "ERROR") ∧
       record_status vid (world_of run) = Some (if bool_decide (k = 5) then "COMPLETED" else "ERROR").
Proof.
  intros Hv. unfold process_video.
  change (wp (try_except (process_video_body env vid path) (process_video_handler vid))
    (λ r w' t, r = inr () ∧
       ∃ k, 1 ≤ k ≤ 5 ∧
         snapshots vid t = run_snapshots (VideoMetadata.processing_status v) k ∧
         job_writes vid t = run_job_writes k ∧
         job_status vid w' = Some (if bool_decide (k = 5) then "COMPLETED" else "ERROR") ∧
         record_status vid w' = Some (if bool_decide (k = 5) then "COMPLETED" else "ERROR")) w).
  apply wp_try. eapply wp_mono; [| by apply process_video_body_spec].
  intros [e | []] w1 t1 ([v1 Hv1] & k & Hk & Hs & Hj & Hr); [| destruct Hr as (-> & J1 & R1)].
  - eapply process_video_handler_spec; [done |]. intros w2 J2 R2 _.
    split; [done |]. exists k. unfold run_snapshots, run_job_writes.
    rewrite !bool_decide_false by lia. trace_simpl. rewrite Hs, Hj, J2, R2. auto.
  - split; [done |]. exists 5. unfold run_snapshots, run_job_writes.
    rewrite !bool_decide_true by done. split_and!; auto.
Qed.
End Orchestrator.

(** * The status state machine of [process_video] *)



Lemma uploaded_job :
  videos_db uploaded !! "id0"
  = Some (VideoMetadata.mk "id0" "Talk" None "talk.mp4" "uploads/id0_talk.mp4"
            "video/mp4" "2025-01-01T00:00:00" "PROCESSING" None None None None None).
Proof. vm_compute. reflexivity. Qed.



(** C3, as stated, fails: in the scenario run the write of ANALYZING leaves
    the status record at ANALYZING and the Job's own field at PROCESSING. *)
Lemma status_stores_diverge :
  ¬ (∀ s job record,
       (s, job, record)
         ∈ snapshots "id0"
             (events_of (process_video scenario "id0" "uploads/id0_talk.mp4" uploaded)) →
       job = record).
Proof.
  intros H.
  specialize (H "ANALYZING" (Some "PROCESSING") (Some "ANALYZING")).
  assert (Some "PROCESSING" = Some "ANALYZING") as Heq; [| discriminate Heq].
  apply H.
  replace (snapshots "id0"
             (events_of (process_video scenario "id0" "uploads/id0_talk.mp4" uploaded)))
    with (run_snapshots "PROCESSING" 5) by (vm_compute; reflexivity).
  unfold run_snapshots, stage_snapshots. simpl.
  rewrite !elem_of_cons. right. left. reflexivity.
Qed.

(** C3, amended: for a Job submitted by [upload_video] (its own field holds
    PROCESSING), right after every write of a stage tag [s] to the status
    record the record holds [s] and the Job's own field holds [coarse s]:
    PROCESSING while the record shows PROCESSING, ANALYZING,
    EXTRACTING_HIGHLIGHTS or GENERATING_CONTENT_PLAN, and the same tag as the
    record at COMPLETED and ERROR. *)
Theorem job_status_is_coarse_record_status (env : Env) (vid path : string) (w : World)
    (v : VideoMetadata.t) :
  videos_db w !! vid = Some v →
  VideoMetadata.processing_status v = "PROCESSING" →
  ∀ s job record,
    (s, job, record) ∈ snapshots vid (events_of (process_video env vid path w)) →
    record = Some s ∧ job = Some (coarse s).
Proof.
  intros Hv Hp s job record.
  destruct (process_video_spec env vid path w v Hv) as (_ & k & Hk & Hs & _).
  rewrite Hs, Hp. clear Hs.
  assert (k = 1 ∨ k = 2 ∨ k = 3 ∨ k = 4 ∨ k = 5) as Hcases by lia.
  destruct Hcases as [-> | [-> | [-> | [-> | ->]]]];
    unfold run_snapshots, stage_snapshots; simpl;
    rewrite ?elem_of_cons, elem_of_nil; intros Hin;
    repeat destruct Hin as [Hin | Hin]; try done;
    injection Hin as -> -> ->; done.
Qed.

Lemma job_status_is_coarse_record_status_witness :
  videos_db uploaded !! "id0"
    = Some (VideoMetadata.mk "id0" "Talk" None "talk.mp4" "uploads/id0_talk.mp4"
              "video/mp4" "2025-01-01T00:00:00" "PROCESSING" None None None None None)
  ∧ ∀ s job record,
      (s, job, record)
        ∈ snapshots "id0"
            (events_of (process_video scenario "id0" "uploads/id0_talk.mp4" uploaded)) →
      record = Some s ∧ job = Some (coarse s).
Proof.
  split; [exact uploaded_job |].
  eapply (job_status_is_coarse_record_status scenario "id0" "uploads/id0_talk.mp4" uploaded).
  - exact uploaded_job.
  - reflexivity.
Defined.

(** * Events of a run *)

Lemma emits_wp {A} (P : Event → Prop) (m : M A) :
  emits P m ↔ ∀ w, wp m (λ _ _ t, Forall P t) w.
Proof. done. Qed.

Lemma emits_ret {A} P (a : A) : emits P (mret a).
Proof. intros w. constructor. Qed.

Lemma emits_raise {A} P (e : exn) : emits P (raise e : M A).
Proof. intros w. constructor. Qed.

Lemma emits_bind {A B} P (m : M A) (k : A → M B) :
  emits P m → (∀ a, emits P (k a)) → emits P (m ≫= k).
Proof.
  rewrite !emits_wp. intros Hm Hk w. apply wp_bind. eapply wp_mono; [| apply Hm].
  intros [e | a] w1 t1 Ht1; [done |].
  eapply wp_mono; [| apply emits_wp, Hk]. simpl. intros _ _ t2 Ht2.
  rewrite Forall_app. auto.
Qed.

Lemma emits_try {A} P (body : M A) (handler : exn → M A) :
  emits P body → (∀ e, emits P (handler e)) → emits P (try_except body handler).
Proof.
  rewrite !emits_wp. intros Hb Hh w. apply wp_try. eapply wp_mono; [| apply Hb].
  intros [e | a] w1 t1 Ht1; [| done].
  eapply wp_mono; [| apply emits_wp, Hh]. simpl. intros _ _ t2 Ht2.
  rewrite Forall_app. auto.
Qed.

Lemma emits_quiet {A} (P : Event → Prop) (m : M A) :
  (∀ ev, is_call ev → P ev) → quiet m → emits P m.
Proof.
  intros HP Hm. apply emits_wp. intros w. eapply wp_mono; [| apply Hm].
  simpl. intros _ _ t (_ & _ & Ht). eapply Forall_impl; eauto.
Qed.

Lemma emits_set_status P vid s :
  (∀ w, P (StatusWritten vid s w)) → emits P (set_status vid s).
Proof. intros HP w. repeat constructor. apply HP. Qed.

Lemma emits_update_video P vid f : emits P (update_video vid f).
Proof.
  intros w. unfold update_video, events_of, mbind, M_bind, bind, get. simpl.
  destruct (videos_db w !! vid); constructor.
Qed.

Lemma emits_set_job_status P vid s :
  P (JobStatusWritten vid s) → emits P (set_job_status vid s).
Proof.
  intros HP. unfold set_job_status. apply emits_bind; [apply emits_update_video |].
  intros _ w. by repeat constructor.
Qed.

Lemma emits_modify P f : emits P (modify f).
Proof. intros w. constructor. Qed.

Lemma is_call_not_empty_plan ev : is_call ev → ev ≠ Called (ContentPlanInference []).
Proof. intros H ->. exact H. Qed.

(** No run of the background task asks for a content plan of no highlights. *)
Lemma process_video_never_plans_nothing env vid path :
  emits (λ ev, ev ≠ Called (ContentPlanInference [])) (process_video env vid path).
Proof.
  pose proof is_call_not_empty_plan as Hc.
  unfold process_video. apply emits_try.
  - unfold process_video_body.
    repeat first
      [ apply emits_set_status; done
      | apply emits_set_job_status; done
      | apply emits_update_video
      | apply emits_modify
      | apply emits_quiet; [exact Hc |];
        first [ apply quiet_VideoProcessor | apply quiet_analyze_video
              | apply quiet_extract_highlights | apply quiet_generate_content_plan ]
      | apply emits_bind; [| intros ?]
      | match goal with
        | |- emits _ (match ?x with _ => _ end) =>
            destruct x; [apply emits_ret | apply emits_raise]
        end ].
  - intros e. unfold process_video_handler.
    repeat first
      [ apply emits_set_status; done
      | apply emits_set_job_status; done
      | apply emits_update_video
      | apply emits_bind; [| intros ?] ].
Qed.

(** ** Exact rules, for runs whose collaborators are known *)

Lemma wp_run {A} (m : M A) (Q : exn + A → World → list Event → Prop) w r w' t :
  m w = (r, w', t) → Q r w' t → wp m Q w.
Proof. unfold wp. by intros ->. Qed.

Lemma wp_set_status_exact vid s (Q : exn + () → World → list Event → Prop) w :
  (let w' := with_processing_status (<[vid := ProcessingStatus.mk vid s]>) w in
   Q (inr ()) w' [StatusWritten vid s w']) →
  wp (set_status vid s) Q w.
Proof. done. Qed.

Lemma wp_update_video_exact vid f v (Q : exn + () → World → list Event → Prop) w :
  videos_db w !! vid = Some v →
  Q (inr ()) (with_videos (<[vid := f v]>) w) [] →
  wp (update_video vid f) Q w.
Proof.
  intros Hv H. unfold update_video. apply wp_get. rewrite Hv. by apply wp_modify.
Qed.

Lemma wp_set_job_status_exact vid s v (Q : exn + () → World → list Event → Prop) w :
  videos_db w !! vid = Some v →
  Q (inr ()) (with_videos (<[vid := VideoMetadata.set_processing_status s v]>) w)
    [JobStatusWritten vid s] →
  wp (set_job_status vid s) Q w.
Proof.
  intros Hv H. unfold set_job_status. apply wp_bind.
  eapply wp_update_video_exact; [done |]. by apply wp_emit.
Qed.

Lemma wp_VideoProcessor_ok env path clip (Q : exn + clip_info → World → list Event → Prop) w :
  path ∈ files w →
  VideoFileClip env path = inr clip →
  Q (inr clip) w [Called (OpenVideo path)] →
  wp (VideoProcessor env path) Q w.
Proof.
  intros Hf Hc H. unfold VideoProcessor. apply wp_get.
  rewrite bool_decide_true by done. apply wp_call. by rewrite Hc.
Qed.

Lemma wp_analyze_video_ok env path clip parsed
    (Q : exn + json_value (option (list Moment.t)) → World → list Event → Prop) w :
  VideoFileClip env path = inr clip →
  highlights_reply env path = inr (Some parsed) →
  Q (inr parsed) w [Called (OpenVideo path); Called (HighlightInference path)] →
  wp (analyze_video env path) Q w.
Proof.
  intros Hc Hr H. unfold analyze_video.
  apply wp_bind, wp_call. rewrite Hc.
  apply wp_bind, wp_call. rewrite Hr. simpl.
  by apply wp_ret.
Qed.

(** * Empty input to content-plan generation *)

(** C7: [generate_content_plan] on an empty highlight list raises the
    empty-input [ValueError] at once, with no call to any collaborator and
    no change of state; no run of [process_video] ever issues content-plan
    inference on an empty list; and when highlight inference answers no
    moments, the Job's run makes no content-plan inference call at all and
    ends with the Job's field and its status record at ERROR and the
    empty-input message recorded on the Job. *)
Theorem empty_highlights_fail_fast (env : Env) (vid path : string) (w : World)
    (v : VideoMetadata.t) (clip : clip_info) (fields : option (list Moment.t)) :
  videos_db w !! vid = Some v →
  path ∈ files w →
  VideoFileClip env path = inr clip →
  highlights_reply env path = inr (Some (JObject fields)) →
  default [] fields = [] →
  let msg := "No highlights provided for content plan generation" in
  let run := process_video env vid path w in
  (∀ w0, generate_content_plan env [] w0 = (inl (ValueError msg), w0, []))
  ∧ Forall (λ ev, ev ≠ Called (ContentPlanInference [])) (events_of run)
  ∧ (∀ hs, Called (ContentPlanInference hs) ∉ events_of run)
  ∧ record_writes vid (events_of run)
    = ["PROCESSING"; "ANALYZING"; "EXTRACTING_HIGHLIGHTS"; "GENERATING_CONTENT_PLAN";
       "ERROR"]
  ∧ job_status vid (world_of run) = Some "ERROR"
  ∧ record_status vid (world_of run) = Some "ERROR"
  ∧ VideoMetadata.error_message <$> videos_db (world_of run) !! vid = Some (Some msg)
  ∧ content_plans_db (world_of run) = content_plans_db w.
Proof.
  intros Hv Hf Hclip Hreply Hnil msg run.
  split; [done |]. split; [apply process_video_never_plans_nothing |].
  subst run. unfold process_video.
  match goal with
  | |- ?G => pattern (events_of (try_except (process_video_body env vid path)
                                   (process_video_handler vid) w)) in |- *
  end.
  match goal with
  | |- ?F ?t =>
      change (wp (try_except (process_video_body env vid path) (process_video_handler vid))
                (λ _ w' t',
                   (∀ hs, Called (ContentPlanInference hs) ∉ t')
                   ∧ record_writes vid t'
                     = ["PROCESSING"; "ANALYZING"; "EXTRACTING_HIGHLIGHTS";
                        "GENERATING_CONTENT_PLAN"; "ERROR"]
                   ∧ job_status vid w' = Some "ERROR"
                   ∧ record_status vid w' = Some "ERROR"
                   ∧ VideoMetadata.error_message <$> videos_db w' !! vid = Some (Some msg)
                   ∧ content_plans_db w' = content_plans_db w) w)
  end.
  apply wp_try. unfold process_video_body.
  apply wp_bind, wp_set_status_exact. intros w1.
  apply wp_bind. eapply wp_VideoProcessor_ok; [exact Hf | exact Hclip |].
  apply wp_bind. eapply wp_update_video_exact; [exact Hv |].
  apply wp_bind. eapply wp_update_video_exact; [simpl; apply lookup_insert_eq |].
  apply wp_bind. eapply wp_set_job_status_exact; [simpl; apply lookup_insert_eq |].
  apply wp_bind, wp_set_status_exact. intros w2.
  apply wp_bind. eapply wp_analyze_video_ok; [exact Hclip | exact Hreply |].
  apply wp_bind, wp_set_status_exact. intros w3.
  apply wp_bind, wp_ret. rewrite Hnil.
  apply wp_bind, wp_ret.
  apply wp_bind, wp_set_status_exact. intros w4.
  apply wp_bind, wp_raise.
  unfold process_video_handler.
  apply wp_bind. eapply wp_set_job_status_exact; [simpl; apply lookup_insert_eq |].
  apply wp_bind. eapply wp_update_video_exact; [simpl; apply lookup_insert_eq |].
  apply wp_set_status_exact. intros w5.
  split_and!.
  - intros hs. simpl. rewrite !elem_of_cons, elem_of_nil. intuition discriminate.
  - unfold record_writes. simpl. by rewrite !bool_decide_true.
  - unfold job_status. simpl. by rewrite lookup_insert_eq.
  - unfold record_status. simpl. by rewrite lookup_insert_eq.
  - simpl. by rewrite lookup_insert_eq.
  - done.
Qed.

Lemma empty_highlights_fail_fast_witness :
  job_status "id0"
    (world_of (process_video scenario_no_moments "id0" "uploads/id0_talk.mp4" uploaded))
  = Some "ERROR".
Proof.
  eapply (empty_highlights_fail_fast scenario_no_moments "id0" "uploads/id0_talk.mp4"
            uploaded _ (mk_clip 30 25) (Some [])).
  - exact uploaded_job.
  - apply (bool_decide_unpack _). vm_compute. exact I.
  - reflexivity.
  - reflexivity.
  - reflexivity.
Defined.

(** * Submission *)

(** C8: a submission whose declared media type is not one of
    [allowed_types] (or that declares none) is answered with the
    invalid-file-type [HTTPException] and leaves the whole state as it was:
    no identifier is drawn, no file is written, no table gets an entry, and
    nothing is called. *)
Theorem unsupported_media_type_rejected (env : Env) (file : UploadFile)
    (title : string) (description : option string) (w : World) :
  (∀ c, content_type file = Some c → c ∉ allowed_types) →
  upload_video env file title description w
  = (inl (HTTPException 400
            "Invalid file type. Only MP4, MOV, and AVI files are supported."), w, []).
Proof.
  intros Hc. unfold upload_video, type_allowed.
  destruct (content_type file) as [c |]; [| done].
  by rewrite bool_decide_false by auto.
Qed.

Lemma unsupported_media_type_rejected_witness :
  upload_video scenario png_upload "Logo" None uploaded
  = (inl (HTTPException 400
            "Invalid file type. Only MP4, MOV, and AVI files are supported."),
     uploaded, []).
Proof.
  apply (unsupported_media_type_rejected scenario png_upload "Logo" None uploaded).
  intros c Hc. injection Hc as <-. apply (bool_decide_unpack _). vm_compute. exact I.
Defined.

Lemma wp_any {A} (m : M A) (Q : exn + A → World → list Event → Prop) w :
  (∀ r w' t, Q r w' t) → wp m Q w.
Proof. intros H. apply H. Qed.

(** The first thing the background task does is to create the status record. *)
Lemma process_video_first_event env vid path w :
  ∃ rest,
    events_of (process_video env vid path w)
    = StatusWritten vid "PROCESSING"
        (with_processing_status (<[vid := ProcessingStatus.mk vid "PROCESSING"]>) w)
      :: rest.
Proof.
  change (wp (process_video env vid path)
            (λ _ _ t, ∃ rest,
               t = StatusWritten vid "PROCESSING"
                     (with_processing_status
                        (<[vid := ProcessingStatus.mk vid "PROCESSING"]>) w) :: rest) w).
  unfold process_video, process_video_body.
  apply wp_try, wp_bind, wp_set_status_exact. intros w1.
  apply wp_any. intros [e | []] w2 t2; [| by eexists].
  apply wp_any. intros r w3 t3. by eexists.
Qed.

(** C9: when a submission succeeded and its identifier has no status record
    yet, the state it leaves answers Fetch Job with the metadata returned
    and Poll status with the not-found [HTTPException]: only [videos_db]
    changed; the status record appears with the first write of the
    background task. *)
Theorem status_not_found_before_task_starts (env : Env) (file : UploadFile)
    (title : string) (description : option string) (w : World)
    (meta : VideoMetadata.t) (vid path : string) :
  result_of (upload_video env file title description w) = inr (meta, (vid, path)) →
  processing_status_db w !! vid = None →
  let w' := world_of (upload_video env file title description w) in
  result_of (get_video vid w') = inr meta
  ∧ result_of (get_processing_status vid w') = inl (HTTPException 404 "Video not found")
  ∧ videos_db w' = <[vid := meta]> (videos_db w)
  ∧ highlights_db w' = highlights_db w
  ∧ content_plans_db w' = content_plans_db w
  ∧ processing_status_db w' = processing_status_db w
  ∧ ∃ w1 rest,
      events_of (process_video env vid path w') = StatusWritten vid "PROCESSING" w1 :: rest
      ∧ result_of (get_processing_status vid w1)
        = inr (ProcessingStatus.mk vid "PROCESSING").
Proof.
  intros Hr Hnone. cbv zeta.
  assert (videos_db (world_of (upload_video env file title description w))
            = <[vid := meta]> (videos_db w)
          ∧ highlights_db (world_of (upload_video env file title description w))
            = highlights_db w
          ∧ content_plans_db (world_of (upload_video env file title description w))
            = content_plans_db w
          ∧ processing_status_db (world_of (upload_video env file title description w))
            = processing_status_db w) as (Ev & Eh & Ec & Ep).
  { revert Hr. unfold upload_video.
    destruct (negb (type_allowed file)); [discriminate |].
    unfold mbind, M_bind, bind, uuid4, write_file, call, result_of, world_of. simpl.
    destruct (open_write env _) as [e | []]; simpl; [discriminate |].
    destruct (write_data env _) as [e | []]; simpl; [discriminate |].
    intros [= <- <- <-]. done. }
  split_and!; try done.
  - unfold get_video, result_of, mbind, M_bind, bind, get. simpl.
    by rewrite Ev, lookup_insert_eq.
  - unfold get_processing_status, result_of, mbind, M_bind, bind, get. simpl.
    by rewrite Ep, Hnone.
  - destruct (process_video_first_event env vid path
                (world_of (upload_video env file title description w))) as [rest Hrest].
    eexists _, rest. split; [exact Hrest |].
    unfold get_processing_status, result_of, mbind, M_bind, bind, get. simpl.
    by rewrite lookup_insert_eq.
Qed.

Lemma status_not_found_before_task_starts_witness :
  result_of (get_processing_status "id0" uploaded)
  = inl (HTTPException 404 "Video not found").
Proof.
  eapply (status_not_found_before_task_starts scenario mp4_upload "Talk" None empty_world
            _ "id0" "uploads/id0_talk.mp4").
  - vm_compute. reflexivity.
  - reflexivity.
Defined.

(** * The registry invariant is kept by every operation *)

Lemma preserves_ret {A} I (a : A) : preserves I (mret a).
Proof. intros w Hw. exact Hw. Qed.

Lemma preserves_raise {A} I (e : exn) : preserves I (raise e : M A).
Proof. intros w Hw. exact Hw. Qed.

Lemma preserves_bind {A B} I (m : M A) (k : A → M B) :
  preserves I m → (∀ a, preserves I (k a)) → preserves I (m ≫= k).
Proof.
  intros Hm Hk w Hw. specialize (Hm w Hw).
  change (wp (m ≫= k) (λ _ w' _, I w') w). apply wp_bind.
  unfold wp. destruct (result_of (m w)) as [e | a]; [exact Hm |].
  apply Hk, Hm.
Qed.

Lemma preserves_try {A} I (body : M A) (handler : exn → M A) :
  preserves I body → (∀ e, preserves I (handler e)) → preserves I (try_except body handler).
Proof.
  intros Hb Hh w Hw. specialize (Hb w Hw).
  change (wp (try_except body handler) (λ _ w' _, I w') w). apply wp_try.
  unfold wp. destruct (result_of (body w)) as [e | a]; [| exact Hb].
  apply Hh, Hb.
Qed.

Lemma preserves_get {A} I (k : World → M A) :
  (∀ w, preserves I (k w)) → preserves I (get ≫= k).
Proof.
  intros Hk w Hw. change (wp (get ≫= k) (λ _ w' _, I w') w).
  apply wp_get, (Hk w w Hw).
Qed.

Lemma preserves_modify I f : (∀ w, I w → I (f w)) → preserves I (modify f).
Proof. intros Hf w Hw. apply Hf, Hw. Qed.

Lemma preserves_emit I ev : preserves I (emit ev).
Proof. intros w Hw. exact Hw. Qed.

Lemma preserves_call {A} I c (outcome : exn + A) : preserves I (call c outcome).
Proof. intros w Hw. unfold call. by destruct outcome. Qed.

Lemma keyed_by_id_insert h w :
  keyed_by_id w → keyed_by_id (with_highlights (<[HighlightClip.id h := h]>) w).
Proof. intros Hw. by apply map_Forall_insert_2. Qed.

Lemma keyed_by_id_delete k w :
  keyed_by_id w → keyed_by_id (with_highlights (delete k) w).
Proof. intros Hw. by apply map_Forall_delete. Qed.

Lemma keyed_by_id_empty : keyed_by_id empty_world.
Proof. apply map_Forall_empty. Qed.

Ltac keyed_steps :=
  repeat first
    [ apply preserves_ret | apply preserves_raise | apply preserves_emit
    | apply preserves_call
    | apply preserves_modify; intros ? ?;
      first [ assumption | by apply keyed_by_id_delete
            | by apply (keyed_by_id_insert (HighlightClip.mk _ _ _ _ _ _ _ _ _)) ]
    | apply preserves_get; intros ?
    | match goal with
      | |- preserves _ (if ?b then _ else _) => destruct b
      | |- preserves _ (match ?x with _ => _ end) => destruct x
      end
    | apply preserves_bind; [| intros ?] ].

Lemma keyed_extract_highlights env vid hs :
  ∀ i acc, preserves keyed_by_id (extract_highlights env vid i hs acc).
Proof.
  induction hs as [| h hs IH]; intros i acc; simpl.
  - apply preserves_ret.
  - apply preserves_bind; [| intros ?; apply IH].
    unfold extract_highlight, uuid4, extract_clip, extract_thumbnail,
      generate_subtitles, write_file.
    keyed_steps.
Qed.

Lemma keyed_delete_highlights hs : preserves keyed_by_id (delete_highlights hs).
Proof.
  induction hs as [| h hs IH]; simpl.
  - apply preserves_ret.
  - apply preserves_bind; [| intros ?; apply IH].
    unfold delete_highlight, remove_optional, remove_if_exists. keyed_steps.
Qed.

Lemma keyed_process_video env vid path : preserves keyed_by_id (process_video env vid path).
Proof.
  unfold process_video. apply preserves_try.
  - unfold process_video_body, set_status, VideoProcessor, update_video,
      set_job_status, update_video, analyze_video, generate_content_plan.
    repeat first
      [ apply keyed_extract_highlights
      | progress keyed_steps ].
  - intros e. unfold process_video_handler, set_status, set_job_status, update_video.
    keyed_steps.
Qed.

Lemma keyed_upload_video env file title description :
  preserves keyed_by_id (upload_video env file title description).
Proof. unfold upload_video, uuid4, write_file. keyed_steps. Qed.

Lemma keyed_delete_video vid : preserves keyed_by_id (delete_video vid).
Proof.
  unfold delete_video, remove_if_exists.
  repeat first [ apply keyed_delete_highlights | progress keyed_steps ].
Qed.

Lemma keyed_by_id_processed : keyed_by_id processed.
Proof. apply keyed_process_video, keyed_upload_video, keyed_by_id_empty. Qed.

(** * Cascade deletion *)

Lemma videos_db_with_files f w : videos_db (with_files f w) = videos_db w.
Proof. done. Qed.

Lemma videos_db_with_highlights f w : videos_db (with_highlights f w) = videos_db w.
Proof. done. Qed.

Lemma videos_db_with_content_plans f w : videos_db (with_content_plans f w) = videos_db w.
Proof. done. Qed.

Lemma with_files_id w : with_files (λ _, files w) w = w.
Proof. by destruct w. Qed.

Lemma wp_remove_if_exists path (Q : exn + () → World → list Event → Prop) w :
  (∀ fs, Q (inr ()) (with_files (λ _, fs) w) []) → wp (remove_if_exists path) Q w.
Proof.
  intros H. unfold remove_if_exists. apply wp_get. case_bool_decide.
  - apply wp_modify, (H (files w ∖ {[path]})).
  - apply wp_ret. rewrite <- (with_files_id w). apply H.
Qed.

Lemma wp_remove_optional path (Q : exn + () → World → list Event → Prop) w :
  (∀ fs, Q (inr ()) (with_files (λ _, fs) w) []) → wp (remove_optional path) Q w.
Proof.
  intros H. destruct path as [p |]; simpl.
  - case_bool_decide; [| by apply wp_remove_if_exists].
    apply wp_ret. rewrite <- (with_files_id w). apply H.
  - apply wp_ret. rewrite <- (with_files_id w). apply H.
Qed.

Lemma wp_delete_highlights hs :
  ∀ (Q : exn + () → World → list Event → Prop) w,
    (∀ fs, Q (inr ())
             (with_highlights (without_highlights hs) (with_files (λ _, fs) w)) []) →
    wp (delete_highlights hs) Q w.
Proof.
  induction hs as [| h hs IH]; intros Q w H; simpl.
  - apply wp_ret. specialize (H (files w)). rewrite with_files_id in H.
    by destruct w.
  - unfold delete_highlight.
    apply wp_bind, wp_bind, wp_remove_if_exists. intros fs1.
    apply wp_bind, wp_remove_optional. intros fs2.
    apply wp_bind, wp_remove_optional. intros fs3.
    apply wp_modify. simpl. apply IH. intros fs. exact (H fs).
Qed.

Lemma wp_elim {A} (m : M A) (Q : exn + A → World → list Event → Prop) w :
  wp m Q w → ∃ r w' t, m w = (r, w', t) ∧ Q r w' t.
Proof. unfold wp. destruct (m w) as [[r w'] t]. eauto. Qed.

(** What [delete_video] does to a Job that is in the registry. *)
Lemma delete_video_found vid w video :
  videos_db w !! vid = Some video →
  ∃ fs,
    delete_video vid w
    = (inr "Video deleted successfully",
       mkWorld (delete vid (videos_db w))
               (without_highlights (highlights_of vid w) (highlights_db w))
               (delete vid (content_plans_db w))
               (delete vid (processing_status_db w))
               fs (uuid_drawn w),
       []).
Proof.
  intros Hv.
  assert (wp (delete_video vid)
            (λ r w' t, ∃ fs,
               r = inr "Video deleted successfully"
               ∧ w' = mkWorld (delete vid (videos_db w))
                        (without_highlights (highlights_of vid w) (highlights_db w))
                        (delete vid (content_plans_db w))
                        (delete vid (processing_status_db w))
                        fs (uuid_drawn w)
               ∧ t = []) w) as Hwp.
  { unfold delete_video. apply wp_get. rewrite Hv.
    apply wp_bind, wp_remove_if_exists. intros fs1.
    apply wp_bind, wp_delete_highlights. intros fs2.
    apply wp_bind, wp_modify.
    apply wp_get, wp_bind.
    rewrite videos_db_with_content_plans, videos_db_with_highlights,
      !videos_db_with_files, Hv.
    apply wp_modify, wp_bind, wp_modify, wp_ret. by exists fs2. }
  apply wp_elim in Hwp as (r & w' & t & Hrun & fs & -> & -> & ->). eauto.
Qed.

Lemma delete_video_missing vid w :
  videos_db w !! vid = None →
  delete_video vid w = (inl (HTTPException 404 "Video not found"), w, []).
Proof.
  intros Hv. unfold delete_video, mbind, M_bind, bind, get. simpl. by rewrite Hv.
Qed.

Lemma lookup_without_highlights hs :
  ∀ m k,
    without_highlights hs m !! k
    = if bool_decide (k ∈ HighlightClip.id <$> hs) then None else m !! k.
Proof.
  induction hs as [| h hs IH]; intros m k; [done |].
  change (without_highlights (h :: hs) m)
    with (without_highlights hs (delete (HighlightClip.id h) m)).
  rewrite fmap_cons, IH. destruct (decide (k = HighlightClip.id h)) as [-> | Hne].
  - rewrite lookup_delete_eq.
    rewrite (bool_decide_true (_ ∈ _ :: _)) by apply list_elem_of_here.
    by case_bool_decide.
  - rewrite lookup_delete_ne by done.
    rewrite (bool_decide_ext (k ∈ HighlightClip.id h :: (HighlightClip.id <$> hs))
               (k ∈ HighlightClip.id <$> hs)); [done |].
    rewrite elem_of_cons. intuition congruence.
Qed.

Lemma elem_of_highlights_of vid w h :
  h ∈ highlights_of vid w
  ↔ HighlightClip.video_id h = vid ∧ ∃ k, highlights_db w !! k = Some h.
Proof.
  unfold highlights_of, values. rewrite list_elem_of_filter, list_elem_of_fmap.
  split.
  - intros [Hvid [[k h'] [-> Hin]]]. apply elem_of_map_to_list in Hin. eauto.
  - intros [Hvid [k Hk]]. split; [done |].
    exists (k, h). split; [done |]. by apply elem_of_map_to_list.
Qed.

(** With every Highlight stored under its own identifier, deleting the
    Highlights of [vid] removes exactly the entries owned by [vid]. *)
Lemma lookup_without_highlights_of vid w k :
  keyed_by_id w →
  without_highlights (highlights_of vid w) (highlights_db w) !! k
  = match highlights_db w !! k with
    | Some h => if bool_decide (HighlightClip.video_id h = vid) then None else Some h
    | None => None
    end.
Proof.
  intros Hkeyed. rewrite lookup_without_highlights.
  destruct (highlights_db w !! k) as [h |] eqn:Hk.
  - pose proof (Hkeyed k h Hk) as Hid. simpl in Hid.
    case_bool_decide as Hin; case_bool_decide as Hvid; try done.
    + apply list_elem_of_fmap in Hin as [h' [-> Hin']].
      apply elem_of_highlights_of in Hin' as [Hvid' [k' Hk']].
      pose proof (Hkeyed k' h' Hk') as Hid'. simpl in Hid'. subst k'.
      rewrite Hk in Hk'. injection Hk' as ->. done.
    + exfalso. apply Hin. apply list_elem_of_fmap. exists h. split; [done |].
      apply elem_of_highlights_of. eauto.
  - by case_bool_decide.
Qed.

(** C4, as stated, fails: the first deletion of the processed Job succeeds,
    the second one raises the not-found [HTTPException]. *)
Lemma second_delete_raises_not_found :
  result_of (delete_video "id0" processed) = inr "Video deleted successfully"
  ∧ result_of (delete_video "id0" (world_of (delete_video "id0" processed)))
    = inl (HTTPException 404 "Video not found").
Proof. split; vm_compute; reflexivity. Qed.

(** C4, amended: deleting a Job that is in the registry succeeds whatever
    files exist on disk (so also when its upload, clips, thumbnails and
    subtitles were removed before), and leaves no Highlight owned by the Job,
    no ContentPlan, no status record and no Job entry for its identifier;
    after it Fetch Highlights and Fetch ContentPlan answer not-found, and so
    does a second deletion of the same identifier, which changes nothing. *)
Theorem delete_video_cascade (vid : string) (w : World) (video : VideoMetadata.t) :
  keyed_by_id w →
  videos_db w !! vid = Some video →
  let run := delete_video vid w in
  let w' := world_of run in
  result_of run = inr "Video deleted successfully"
  ∧ (∀ k h, highlights_db w' !! k = Some h → HighlightClip.video_id h ≠ vid)
  ∧ content_plans_db w' !! vid = None
  ∧ processing_status_db w' !! vid = None
  ∧ videos_db w' !! vid = None
  ∧ result_of (get_highlights vid w') = inl (HTTPException 404 "Video not found")
  ∧ result_of (get_content_plan vid w') = inl (HTTPException 404 "Video not found")
  ∧ delete_video vid w' = (inl (HTTPException 404 "Video not found"), w', [])
  ∧ (∀ fs, let run' := delete_video vid (with_files (λ _, fs) w) in
           result_of run' = inr "Video deleted successfully"
           ∧ same_tables w' (world_of run')).
Proof.
  intros Hkeyed Hv. cbv zeta.
  destruct (delete_video_found vid w video Hv) as [fs0 Hrun]. rewrite Hrun.
  unfold result_of, world_of. simpl.
  assert (Hgone : delete vid (videos_db w) !! vid = None) by apply lookup_delete_eq.
  split_and!.
  - done.
  - intros k h. rewrite lookup_without_highlights_of by done.
    destruct (highlights_db w !! k) as [h' |]; [| done].
    case_bool_decide; [done |]. by intros [= <-].
  - apply lookup_delete_eq.
  - apply lookup_delete_eq.
  - done.
  - unfold get_highlights, mbind, M_bind, bind, get. simpl. by rewrite Hgone.
  - unfold get_content_plan, mbind, M_bind, bind, get. simpl. by rewrite Hgone.
  - by apply delete_video_missing.
  - intros fs.
    destruct (delete_video_found vid (with_files (λ _, fs) w) video Hv) as [fs1 Hrun'].
    rewrite Hrun'. simpl. done.
Qed.

Lemma delete_video_cascade_witness :
  result_of (delete_video "id0" (with_files (λ _, ∅) processed))
  = inr "Video deleted successfully".
Proof.
  eapply (delete_video_cascade "id0" processed).
  - exact keyed_by_id_processed.
  - vm_compute. reflexivity.
Defined.

(** C10: deleting a Job leaves every other identifier's Job entry,
    ContentPlan and status record as they were, and a Highlight owned by
    another Job is in the registry after the deletion exactly when it was
    before, under the same key. *)
Theorem delete_video_frame (vid other : string) (w : World) :
  keyed_by_id w →
  other ≠ vid →
  let w' := world_of (delete_video vid w) in
  videos_db w' !! other = videos_db w !! other
  ∧ content_plans_db w' !! other = content_plans_db w !! other
  ∧ processing_status_db w' !! other = processing_status_db w !! other
  ∧ (∀ k h, HighlightClip.video_id h = other →
            highlights_db w' !! k = Some h ↔ highlights_db w !! k = Some h)
  ∧ (∀ h, h ∈ highlights_of other w' ↔ h ∈ highlights_of other w).
Proof.
  intros Hkeyed Hne. cbv zeta.
  destruct (videos_db w !! vid) as [video |] eqn:Hv.
  2: { rewrite (delete_video_missing vid w Hv). done. }
  destruct (delete_video_found vid w video Hv) as [fs0 Hrun]. rewrite Hrun.
  unfold world_of. simpl.
  assert (Hh : ∀ k h, HighlightClip.video_id h = other →
                 without_highlights (highlights_of vid w) (highlights_db w) !! k = Some h
                 ↔ highlights_db w !! k = Some h).
  { intros k h Hother. rewrite lookup_without_highlights_of by done.
    destruct (highlights_db w !! k) as [h' |]; [| done].
    case_bool_decide as Hvid; [| done].
    split; [done |]. intros [= ->]. congruence. }
  split_and!.
  - by apply lookup_delete_ne.
  - by apply lookup_delete_ne.
  - by apply lookup_delete_ne.
  - exact Hh.
  - intros h. rewrite !elem_of_highlights_of. simpl.
    split; intros [Hother [k Hk]]; (split; [done |]); exists k; by apply (Hh k h Hother).
Qed.

Lemma keyed_by_id_two_jobs : keyed_by_id two_jobs.
Proof.
  unfold two_jobs. apply keyed_process_video, keyed_upload_video.
  exact keyed_by_id_processed.
Qed.

Lemma delete_video_frame_witness :
  result_of (delete_video "id0" two_jobs) = inr "Video deleted successfully"
  ∧ length (highlights_of "id0" two_jobs) = 2
  ∧ is_Some (videos_db two_jobs !! "id3")
  ∧ length (highlights_of "id3" two_jobs) = 2
  ∧ videos_db (world_of (delete_video "id0" two_jobs)) !! "id3"
    = videos_db two_jobs !! "id3"
  ∧ content_plans_db (world_of (delete_video "id0" two_jobs)) !! "id3"
    = content_plans_db two_jobs !! "id3"
  ∧ processing_status_db (world_of (delete_video "id0" two_jobs)) !! "id3"
    = processing_status_db two_jobs !! "id3"
  ∧ (∀ h, h ∈ highlights_of "id3" (world_of (delete_video "id0" two_jobs))
          ↔ h ∈ highlights_of "id3" two_jobs).
Proof.
  destruct (delete_video_frame "id0" "id3" two_jobs keyed_by_id_two_jobs)
    as (Hv & Hc & Hs & _ & Hh).
  - discriminate.
  - split; [vm_compute; reflexivity |].
    split; [vm_compute; reflexivity |].
    split; [vm_compute; by eexists |].
    split; [vm_compute; reflexivity |].
    by split_and!.
Defined.

(** * Intervals answered by highlight inference *)

Ltac wp_walk :=
  repeat first
    [ apply wp_ret | apply wp_raise | apply wp_modify | apply wp_emit | apply wp_call
    | apply wp_get | apply wp_bind
    | match goal with
      | |- wp (match ?x with _ => _ end) _ _ => destruct x
      | |- match ?x with _ => _ end => destruct x
      end ].

(** The fabricated highlights of [analyze_video] never end after the source:
    that branch clamps. *)
Lemma mock_highlight_end_clamped env duration i :
  ∃ e, Moment.end_time (mock_highlight env duration i) = Some e ∧ (e <= duration)%Q.
Proof.
  unfold mock_highlight. cbv zeta. simpl.
  destruct (Qlt_le_dec duration _) as [Hlt | Hle]; eexists; split; try reflexivity.
  - apply Qle_refl.
  - exact Hle.
Qed.

(** [process_video] itself takes the interval as answered: whatever the
    source duration, the Highlight it builds carries the answered offsets
    (0 for a missing one), and the thumbnail is cut at the midpoint of that
    interval. *)
Lemma extract_highlight_keeps_interval env vid i m w :
  let s := default 0%Q (Moment.start_time m) in
  let e := default 0%Q (Moment.end_time m) in
  ∀ h, result_of (extract_highlight env vid i m w) = inr h →
       HighlightClip.start_time h = s
       ∧ HighlightClip.end_time h = e
       ∧ CutClip s e (HighlightClip.clip_path h)
           ∈ calls_of (events_of (extract_highlight env vid i m w))
       ∧ CutThumbnail (s + (e - s) / 2) ("thumbnails/" +:+ HighlightClip.id h +:+ ".jpg")
           ∈ calls_of (events_of (extract_highlight env vid i m w)).
Proof.
  cbv zeta.
  change (wp (extract_highlight env vid i m)
            (λ r _ t, ∀ h, r = inr h →
               HighlightClip.start_time h = default 0%Q (Moment.start_time m)
               ∧ HighlightClip.end_time h = default 0%Q (Moment.end_time m)
               ∧ CutClip (default 0%Q (Moment.start_time m))
                   (default 0%Q (Moment.end_time m)) (HighlightClip.clip_path h)
                   ∈ calls_of t
               ∧ CutThumbnail
                   (default 0%Q (Moment.start_time m)
                    + (default 0%Q (Moment.end_time m)
                       - default 0%Q (Moment.start_time m)) / 2)
                   ("thumbnails/" +:+ HighlightClip.id h +:+ ".jpg")
                   ∈ calls_of t) w).
  unfold extract_highlight, uuid4, extract_clip, extract_thumbnail, generate_subtitles,
    write_file.
  wp_walk; intros h [= <-]; simpl; split_and!; try reflexivity;
    rewrite !elem_of_cons; auto.
Qed.

(** C1: in the scenario of the specification (a 30-second source, inference
    answering (2, 10) and (25, 40)) the Job completes, and the second
    Highlight is cut and registered with [end_time] 40, beyond the source
    duration. *)
Theorem unclamped_end_time_is_stored :
  let run := process_video scenario "id0" "uploads/id0_talk.mp4" uploaded in
  result_of run = inr ()
  ∧ VideoMetadata.duration <$> videos_db (world_of run) !! "id0" = Some (Some 30%Q)
  ∧ job_status "id0" (world_of run) = Some "COMPLETED"
  ∧ calls_of (events_of run) !! 7 = Some (CutClip 25 40 "clips/id0_highlight_1.mp4")
  ∧ ∃ h, highlights_db (world_of run) !! "id2" = Some h
         ∧ HighlightClip.start_time h = 25%Q
         ∧ HighlightClip.end_time h = 40%Q
         ∧ ¬ (HighlightClip.end_time h <= 30)%Q.
Proof.
  cbv zeta. split_and!.
  - vm_compute. reflexivity.
  - vm_compute. reflexivity.
  - vm_compute. reflexivity.
  - vm_compute. reflexivity.
  - eexists. split; [vm_compute; reflexivity |]. split_and!; try reflexivity.
    simpl. intros Hle. vm_compute in Hle. by apply Hle.
Qed.

(** C6: in the same run the thumbnail of the second Highlight is cut at
    32.5 s, the midpoint of (25, 40), and not at 27.5 s, the midpoint of the
    interval clamped to the 30-second source. *)
Theorem thumbnail_at_unclamped_midpoint :
  let run := process_video scenario "id0" "uploads/id0_talk.mp4" uploaded in
  ∃ time,
    calls_of (events_of run) !! 8 = Some (CutThumbnail time "thumbnails/id2.jpg")
    ∧ (time == 65 # 2)%Q
    ∧ (clamped_midpoint 25 40 30 == 55 # 2)%Q
    ∧ ¬ (time == clamped_midpoint 25 40 30)%Q.
Proof.
  cbv zeta. eexists. split; [vm_compute; reflexivity |].
  split_and!; [reflexivity | reflexivity |].
  intros Heq. vm_compute in Heq. discriminate Heq.
Qed.

(** * Content plans *)

Lemma basic_posts_fmap env hs :
  ∀ i, basic_posts env i hs = imap (λ j, basic_post env (i + j)) hs.
Proof.
  induction hs as [| h hs IH]; intros i; simpl; [done |].
  rewrite IH. unfold basic_post at 2. rewrite Nat.add_0_r. f_equal.
  apply imap_ext. intros j x _. simpl. f_equal. lia.
Qed.

Lemma basic_posts_clip_ids env hs :
  ∀ i, ContentPost.clip_id <$> basic_posts env i hs = HighlightClip.id <$> hs.
Proof.
  induction hs as [| h hs IH]; intros i; [done |].
  simpl. f_equal. apply IH.
Qed.

(** When the reply does not decode, every Highlight gets its default post,
    in highlight order. *)
Lemma generate_content_plan_undecodable env hs h0 w :
  head hs = Some h0 →
  content_plan_reply env hs = inr None →
  ∃ plan,
    result_of (generate_content_plan env hs w) = inr plan
    ∧ ContentPlan.posts plan = imap (basic_post env) hs
    ∧ ContentPost.clip_id <$> ContentPlan.posts plan = HighlightClip.id <$> hs
    ∧ length (ContentPlan.posts plan) = length hs.
Proof.
  intros Hhead Hreply. destruct hs as [| h hs']; [done |].
  exists (ContentPlan.mk (HighlightClip.video_id h)
            ("Content Plan for " +:+ pretty (length (h :: hs')) +:+ " Highlights")
            (now_isoformat env) (basic_posts env 0 (h :: hs'))).
  split_and!.
  - unfold generate_content_plan, call, mbind, M_bind, bind, emit, result_of.
    simpl. by rewrite Hreply.
  - cbn [ContentPlan.posts]. by rewrite basic_posts_fmap.
  - cbn [ContentPlan.posts]. apply basic_posts_clip_ids.
  - cbn [ContentPlan.posts]. by rewrite basic_posts_fmap, length_imap.
Qed.

Lemma ContentPost_init_inr env clip_id title caption platform date hashtags post :
  ContentPost_init env clip_id title caption platform date hashtags = inr post →
  ∃ t c p d h,
    title = Some t ∧ caption = Some c ∧ platform = Some p ∧ date = Some d
    ∧ hashtags = Some h ∧ post = ContentPost.mk clip_id t c p d h.
Proof.
  unfold ContentPost_init.
  destruct title, caption, platform, date, hashtags; try discriminate.
  intros [= <-]. by eexists _, _, _, _, _.
Qed.

(** One turn of the loop of the decoded branch, when the loop ends well. *)
Lemma parsed_posts_cons env hs h0 i item items posts :
  parsed_posts env hs h0 i (item :: items) = inr posts →
  (length hs ≤ i ∧ posts = [])
  ∨ (i < length hs
     ∧ ∃ fields post rest,
         item = JObject fields
         ∧ ContentPost_init env (HighlightClip.id (default h0 (hs !! i)))
             (required (HighlightClip.title (default h0 (hs !! i))) (PlanItem.title fields))
             (required "Check out this highlight!" (PlanItem.caption fields))
             (required "Instagram" (PlanItem.platform fields))
             (optional (strftime_days_ahead env (i + 1))
                       (PlanItem.suggested_posting_date fields))
             (required ["video"; "highlights"; "content"] (PlanItem.hashtags fields))
           = inr post
         ∧ parsed_posts env hs h0 (S i) items = inr rest
         ∧ posts = post :: rest).
Proof.
  cbn [parsed_posts]. case_bool_decide as Hlen.
  - intros [= <-]. by left.
  - destruct item as [fields |]; [| discriminate].
    destruct (ContentPost_init _ _ _ _ _ _ _) as [e | post] eqn:Hpost; [discriminate |].
    destruct (parsed_posts env hs h0 (S i) items) as [e | rest] eqn:Hrest; [discriminate |].
    intros [= <-]. right. split; [lia |]. by exists fields, post, rest.
Qed.

(** When the reply decodes to an object and a plan is returned, the plan
    has one post for each of the first [min (#items) (#highlights)]
    Highlights and none for the rest. *)
Lemma parsed_posts_length env hs h0 items :
  ∀ i posts,
    parsed_posts env hs h0 i items = inr posts →
    length posts = min (length items) (length hs - i).
Proof.
  induction items as [| item items IH]; intros i posts.
  - by intros [= <-].
  - intros [[Hlen ->] | (Hlen & fields & post & rest & _ & _ & Hrest & ->)]%parsed_posts_cons.
    + cbn [length]. lia.
    + cbn [length]. rewrite (IH _ _ Hrest). lia.
Qed.

(** C2: with two Highlights and a decoded reply that holds one item, the
    plan that is returned (and stored for the Job, whose [highlights_count]
    is 2) has a single post, for the first Highlight; the second Highlight
    gets no post. *)
Theorem plan_misses_highlights_beyond_reply :
  ∃ plan,
    result_of (generate_content_plan scenario two_clips uploaded) = inr plan
    ∧ HighlightClip.id <$> two_clips = ["id1"; "id2"]
    ∧ ContentPost.clip_id <$> ContentPlan.posts plan = ["id1"]
    ∧ ContentPlan.title plan = "Content Plan for 2 Highlights"
    ∧ content_plans_db processed !! "id0" = Some plan
    ∧ VideoMetadata.highlights_count <$> videos_db processed !! "id0" = Some (Some 2).
Proof.
  eexists. split; [vm_compute; reflexivity |].
  split_and!; vm_compute; reflexivity.
Qed.

(** * The response text *)

Lemma string_app_cons x (a b : string) : String x a +:+ b = String x (a +:+ b).
Proof. reflexivity. Qed.

Lemma string_app_nil_l (a : string) : "" +:+ a = a.
Proof. reflexivity. Qed.

Lemma string_app_assoc (a b c : string) : (a +:+ b) +:+ c = a +:+ (b +:+ c).
Proof.
  induction a as [| x a IH]; [done |]. by rewrite !string_app_cons, IH.
Qed.

Lemma string_app_nil_r (a : string) : a +:+ "" = a.
Proof. induction a as [| x a IH]; [done |]. by rewrite string_app_cons, IH. Qed.

Lemma prefix_app (sep rest : string) : String.prefix sep (sep +:+ rest) = true.
Proof.
  induction sep as [| c sep IH]; [by destruct rest |].
  rewrite string_app_cons. simpl. destruct (Ascii.ascii_dec c c); [exact IH | done].
Qed.

Lemma prefix_head_ne c sep x s : x ≠ c → String.prefix (String c sep) (String x s) = false.
Proof. intros Hne. simpl. destruct (Ascii.ascii_dec c x); [by subst | done]. Qed.

Lemma split_go_nonempty sep s : ∀ skip acc, ∃ x l, split_go sep skip acc s = x :: l.
Proof.
  induction s as [| c s IH]; intros skip acc; cbn [split_go]; [by eexists _, _ |].
  destruct skip as [| k]; [| apply IH].
  destruct (String.prefix sep (String c s)); [by eexists _, _ | apply IH].
Qed.

(** A separator that occurs cuts the text in two pieces at least. *)
Lemma split_go_contains c sep s :
  ∀ acc, contains (String c sep) s = true →
         ∃ x y l, split_go (String c sep) 0 acc s = x :: y :: l.
Proof.
  induction s as [| a s IH]; intros acc Hc; [discriminate Hc |].
  cbn [contains] in Hc. cbn [split_go].
  destruct (String.prefix (String c sep) (String a s)) eqn:Hp.
  - destruct (split_go_nonempty (String c sep) s (String.length (String c sep) - 1) "")
      as (y & l & ->). by eexists _, _, _.
  - apply IH. exact Hc.
Qed.

Lemma split_go_lacks c sep a :
  lacks c a = true →
  ∀ acc s, split_go (String c sep) 0 acc (a +:+ s) = split_go (String c sep) 0 (acc +:+ a) s.
Proof.
  induction a as [| x a IH]; intros Hl acc s.
  - by rewrite string_app_nil_r.
  - cbn [lacks] in Hl. apply andb_true_iff in Hl as [Hx Ha].
    apply negb_true_iff, Ascii.eqb_neq in Hx.
    rewrite string_app_cons. cbn [split_go].
    rewrite prefix_head_ne by done. rewrite IH by done.
    by rewrite string_app_assoc, string_app_cons, string_app_nil_l.
Qed.

Lemma split_go_skip sep sep' rest :
  ∀ acc, split_go sep (String.length sep') acc (sep' +:+ rest) = split_go sep 0 acc rest.
Proof.
  induction sep' as [| x sep' IH]; intros acc.
  - rewrite string_app_nil_l. by destruct rest.
  - rewrite string_app_cons. apply IH.
Qed.

Lemma split_go_sep c sep acc rest :
  split_go (String c sep) 0 acc (String c sep +:+ rest)
  = acc :: split_go (String c sep) 0 "" rest.
Proof.
  rewrite string_app_cons. cbn [split_go].
  rewrite <- string_app_cons, prefix_app.
  replace (String.length (String c sep) - 1) with (String.length sep)
    by (cbn [String.length]; lia).
  by rewrite split_go_skip.
Qed.

(** The piece before the first separator, when what precedes it cannot
    start one. *)
Lemma split_first c sep a rest :
  lacks c a = true →
  split (String c sep) (a +:+ String c sep +:+ rest) = a :: split (String c sep) rest.
Proof.
  intros Hl. unfold split. rewrite split_go_lacks by done. rewrite string_app_nil_l.
  apply split_go_sep.
Qed.

Lemma split_go_lacks_all c sep a acc :
  lacks c a = true → split_go (String c sep) 0 acc a = [acc +:+ a].
Proof.
  intros Hl. pose proof (split_go_lacks c sep a Hl acc "") as H.
  by rewrite string_app_nil_r in H.
Qed.

Lemma split_none c sep a : lacks c a = true → split (String c sep) a = [a].
Proof. intros Hl. unfold split. by rewrite split_go_lacks_all. Qed.

Lemma contains_app c sep a rest :
  contains (String c sep) (a +:+ String c sep +:+ rest) = true.
Proof.
  induction a as [| x a IH].
  - rewrite string_app_nil_l, string_app_cons. cbn [contains].
    by rewrite <- string_app_cons, prefix_app.
  - rewrite string_app_cons. cbn [contains]. rewrite IH. apply orb_true_r.
Qed.

Lemma contains_lacks c sep a : lacks c a = true → contains (String c sep) a = false.
Proof.
  induction a as [| x a IH]; intros Hl; [done |].
  cbn [lacks] in Hl. apply andb_true_iff in Hl as [Hx Ha].
  apply negb_true_iff, Ascii.eqb_neq in Hx.
  cbn [contains]. rewrite prefix_head_ne by done. by apply IH.
Qed.

Lemma prefix_app_l (a b : string) :
  ∀ s, String.prefix (a +:+ b) s = true → String.prefix a s = true.
Proof.
  induction a as [| x a IH]; intros s; [by destruct s |].
  rewrite string_app_cons. destruct s as [| y s]; [done |]. simpl.
  destruct (Ascii.ascii_dec x y); [apply IH | done].
Qed.

Lemma contains_longer (a b s : string) :
  contains (a +:+ b) s = true → contains a s = true.
Proof.
  induction s as [| x s IH]; cbn [contains]; intros H.
  - rewrite orb_false_r in *. by apply (prefix_app_l a b).
  - apply orb_true_iff in H as [H | H]; apply orb_true_iff.
    + left. by apply (prefix_app_l a b).
    + right. by apply IH.
Qed.

(** X1: neither subscript of the fence handling can be out of range, so the
    text handed to [json.loads] is always defined; a response without a
    fence is handed over as it is. *)
Theorem json_source_never_index_error (strip : string → string) (response_text : string) :
  (∃ s, json_source strip response_text = inr s)
  ∧ (contains "```" response_text = false →
     json_source strip response_text = inr response_text).
Proof.
  split.
  - unfold json_source, subscript.
    destruct (contains "```json" response_text) eqn:Hj.
    + destruct (split_go_contains _ _ _ "" Hj) as (x & y & l & Hs).
      unfold split at 1. rewrite Hs. cbn [lookup list_lookup].
      destruct (split_go_nonempty "```" y 0 "") as (z & l' & Hz).
      unfold split. rewrite Hz. by eexists.
    + destruct (contains "```" response_text) eqn:Ht; [| by eexists].
      destruct (split_go_contains _ _ _ "" Ht) as (x & y & l & Hs).
      unfold split at 1. rewrite Hs. cbn [lookup list_lookup].
      destruct (split_go_nonempty "```" y 0 "") as (z & l' & Hz).
      unfold split. rewrite Hz. by eexists.
  - intros Hno. unfold json_source. rewrite Hno.
    destruct (contains "```json" response_text) eqn:Hj; [| done].
    apply (contains_longer "```" "json") in Hj. congruence.
Qed.

(** X2: the subtitles returned always carry the WEBVTT header, the subscript
    of the fence handling is never out of range, and a response that holds no
    fence and starts with the header is returned as it is. *)
Theorem subtitles_text_has_header (strip : string → string) (text : string) :
  ∃ s, subtitles_text strip text = inr s
       ∧ String.prefix "WEBVTT" s = true
       ∧ (contains "```" text = false → String.prefix "WEBVTT" text = true → s = text).
Proof.
  unfold subtitles_text, subscript.
  destruct (contains "```" text) eqn:Ht.
  - destruct (split_go_contains _ _ _ "" Ht) as (x & y & l & Hs).
    unfold split. rewrite Hs. cbn [lookup list_lookup].
    eexists. split; [reflexivity |]. split; [| done].
    destruct (String.prefix "WEBVTT" (strip y)) eqn:Hp; [exact Hp |].
    apply (prefix_app "WEBVTT").
  - eexists. split; [reflexivity |]. split.
    + destruct (String.prefix "WEBVTT" text) eqn:Hp; [exact Hp |].
      apply (prefix_app "WEBVTT").
    + intros _ ->. done.
Qed.

Lemma prefix_lacks c sep s : lacks c s = true → String.prefix (String c sep) s = false.
Proof.
  destruct s as [| x s]; [done |]. cbn [lacks]. intros Hl.
  apply andb_true_iff in Hl as [Hx _]. apply negb_true_iff, Ascii.eqb_neq in Hx.
  by apply prefix_head_ne.
Qed.

Lemma split_go_found sep c s acc :
  String.prefix sep (String c s) = true →
  split_go sep 0 acc (String c s) = acc :: split_go sep (String.length sep - 1) "" s.
Proof. intros H. cbn [split_go]. by rewrite H. Qed.

Lemma split_go_missed sep c s acc :
  String.prefix sep (String c s) = false →
  split_go sep 0 acc (String c s) = split_go sep 0 (acc +:+ String c "") s.
Proof. intros H. cbn [split_go]. by rewrite H. Qed.

(** X3: a response that holds one fenced block opened by [```json], with no
    backtick before, inside or after the block, hands the block's content,
    stripped, to [json.loads]. *)
Theorem json_source_fenced_block (strip : string → string) (pre body post : string) :
  lacks backtick pre = true →
  lacks backtick body = true →
  lacks backtick post = true →
  json_source strip (pre +:+ "```json" +:+ body +:+ "```" +:+ post) = inr (strip body).
Proof.
  unfold backtick. intros Hpre Hbody Hpost. unfold json_source.
  rewrite (contains_app "`" "``json" pre).
  rewrite (split_first "`" "``json" pre) by done.
  unfold subscript at 1. cbn [lookup list_lookup].
  assert (∃ l, split "```json" (body +:+ "```" +:+ post) = body :: l
               ∨ split "```json" (body +:+ "```" +:+ post)
                 = (body +:+ "```" +:+ post) :: l) as [l Hsplit].
  { unfold split. rewrite (split_go_lacks "`" "``json" body) by done.
    rewrite string_app_nil_l, !string_app_cons, string_app_nil_l.
    destruct (String.prefix "```json" (String "`" (String "`" (String "`" post)))) eqn:Hp1.
    { rewrite split_go_found by done. eexists. by left. }
    rewrite split_go_missed by done.
    rewrite split_go_missed
      by (simpl; apply (prefix_lacks "`" "json"), Hpost).
    rewrite split_go_missed
      by (simpl; apply (prefix_lacks "`" "`json"), Hpost).
    rewrite (split_go_lacks_all "`" "``json" post) by done.
    exists []. right. f_equal.
    rewrite !string_app_assoc. reflexivity. }
  destruct (split "```json" (body +:+ "```" +:+ post)) as [| part l'] eqn:Hparts;
    [destruct Hsplit as [? | ?]; discriminate |].
  cbn [lookup list_lookup].
  assert (split "```" part !! 0 = Some body) as Hfirst.
  { destruct Hsplit as [[= -> _] | [= -> _]].
    - by rewrite (split_none "`" "``" body).
    - by rewrite (split_first "`" "``" body). }
  unfold subscript. by rewrite Hfirst.
Qed.

Lemma json_source_fenced_block_witness :
  json_source (λ s, s) ("Here: " +:+ "```json" +:+ "{}" +:+ "```" +:+ " done") = inr "{}".
Proof.
  apply (json_source_fenced_block (λ s, s) "Here: " "{}" " done"); reflexivity.
Defined.

(** * Further behaviour of the registry and the orchestrator *)

Lemma wp_intro {A} (m : M A) (Q : exn + A → World → list Event → Prop) w :
  (∀ r w' t, m w = (r, w', t) → Q r w' t) → wp m Q w.
Proof. intros H. unfold wp. destruct (m w) as [[r w'] t] eqn:E. by apply H. Qed.

Lemma wp_at {A} (m : M A) (Q : exn + A → World → list Event → Prop) w r w' t :
  wp m Q w → m w = (r, w', t) → Q r w' t.
Proof. unfold wp. intros H E. by rewrite E in H. Qed.

Lemma preserves_at {A} I (m : M A) w r w' t :
  preserves I m → I w → m w = (r, w', t) → I w'.
Proof.
  intros Hm Hw E. pose proof (Hm w Hw) as H. unfold world_of in H. by rewrite E in H.
Qed.

Lemma wp_update_video_missing vid f (Q : exn + () → World → list Event → Prop) w :
  videos_db w !! vid = None → Q (inl (KeyError vid)) w [] → wp (update_video vid f) Q w.
Proof. intros Hv H. unfold update_video. apply wp_get. rewrite Hv. by apply wp_raise. Qed.

(** X4: a Highlight of a deleted Job can no longer be published: both
    publishing endpoints answer it before the deletion and raise the
    not-found [HTTPException] after it, and they never change the state. *)
Theorem publish_after_delete (vid k : string) (w : World) (video : VideoMetadata.t)
    (h : HighlightClip.t) :
  keyed_by_id w →
  videos_db w !! vid = Some video →
  highlights_db w !! k = Some h →
  HighlightClip.video_id h = vid →
  let w' := world_of (delete_video vid w) in
  publish_to_youtube k w = (inr ("YouTube publishing feature coming soon", "pending"), w, [])
  ∧ publish_to_instagram k w
    = (inr ("Instagram publishing feature coming soon", "pending"), w, [])
  ∧ publish_to_youtube k w' = (inl (HTTPException 404 "Highlight clip not found"), w', [])
  ∧ publish_to_instagram k w' = (inl (HTTPException 404 "Highlight clip not found"), w', []).
Proof.
  intros Hkeyed Hv Hk Hvid. cbv zeta.
  destruct (delete_video_found vid w video Hv) as [fs Hrun]. rewrite Hrun.
  unfold world_of. cbn [fst snd].
  unfold publish_to_youtube, publish_to_instagram, mbind, M_bind, bind, get.
  cbn [highlights_db]. rewrite Hk.
  rewrite lookup_without_highlights_of, Hk, bool_decide_true by done. done.
Qed.

Lemma processed_job : ∃ video, videos_db processed !! "id0" = Some video.
Proof. eexists. vm_compute. reflexivity. Qed.

Lemma processed_clip :
  highlights_db processed !! "id1"
  = Some (HighlightClip.mk "id1" "id0" "Intro" (Some "first") 2 10
            "clips/id0_highlight_0.mp4" (Some "subtitles/id1.vtt")
            (Some "thumbnails/id1.jpg")).
Proof. vm_compute. reflexivity. Qed.

Lemma publish_after_delete_witness :
  publish_to_youtube "id1" (world_of (delete_video "id0" processed))
  = (inl (HTTPException 404 "Highlight clip not found"),
     world_of (delete_video "id0" processed), []).
Proof.
  destruct processed_job as [video Hv].
  exact (proj1 (proj2 (proj2
           (publish_after_delete "id0" "id1" processed video _
              keyed_by_id_processed Hv processed_clip eq_refl)))).
Defined.

(** X5: when saving the uploaded file raises, [upload_video] lets the
    exception through after drawing an identifier: no Job is registered and
    no table changes.  When it was [open] that raised, no file changes
    either; when the copy raised after [open] had created the file, that
    file is left on disk although no Job was registered for it. *)
Theorem upload_write_failure_registers_nothing (env : Env) (file : UploadFile)
    (title : string) (description : option string) (w : World) (e : exn) :
  type_allowed file = true →
  let path := "uploads/" +:+ uuid4_str env (uuid_drawn w) +:+ "_" +:+ filename file in
  open_write env path = inl e
  ∨ (open_write env path = inr () ∧ write_data env path = inl e) →
  let run := upload_video env file title description w in
  result_of run = inl e
  ∧ same_tables w (world_of run)
  ∧ uuid_drawn (world_of run) = S (uuid_drawn w)
  ∧ files (world_of run)
    = match open_write env path with
      | inl _ => files w
      | inr _ => {[path]} ∪ files w
      end.
Proof.
  intros Ht. cbv zeta. intros He.
  set (path := "uploads/" +:+ uuid4_str env (uuid_drawn w) +:+ "_" +:+ filename file) in *.
  change (wp (upload_video env file title description)
            (λ r w' _, r = inl e ∧ same_tables w w'
                       ∧ uuid_drawn w' = S (uuid_drawn w)
                       ∧ files w' = match open_write env path with
                                    | inl _ => files w
                                    | inr _ => {[path]} ∪ files w
                                    end) w).
  unfold upload_video. rewrite Ht. cbn [negb].
  unfold uuid4, write_file.
  apply wp_bind, wp_get, wp_bind, wp_modify, wp_ret.
  apply wp_bind, wp_bind, wp_call.
  cbn [uuid_drawn]. fold path.
  destruct He as [He | [Ho He]].
  - rewrite He. done.
  - rewrite Ho. apply wp_bind, wp_modify. rewrite He. apply wp_raise. done.
Qed.

Lemma upload_write_failure_registers_nothing_witness :
  result_of (upload_video scenario_disk_full mp4_upload "Talk" None empty_world)
  = inl (CapabilityError "No space left on device")
  ∧ files (world_of (upload_video scenario_disk_full mp4_upload "Talk" None empty_world))
    = {["uploads/id0_talk.mp4"]} ∪ ∅.
Proof.
  destruct (upload_write_failure_registers_nothing scenario_disk_full mp4_upload "Talk"
              None empty_world (CapabilityError "No space left on device") eq_refl
              (or_intror (conj eq_refl eq_refl)))
    as (Hr & _ & _ & Hf).
  split; [exact Hr | exact Hf].
Defined.

(** X6: a background task whose Job is not in [videos_db] (deleted before the
    task ran) lets a [KeyError] escape: the subscript in the [except] block
    fails too, so ERROR is never written and the status record it created
    stays at PROCESSING for an identifier that has no Job entry. *)
Theorem process_video_unknown_job (env : Env) (vid path : string) (w : World) :
  videos_db w !! vid = None →
  let run := process_video env vid path w in
  result_of run = inl (KeyError vid)
  ∧ videos_db (world_of run) = videos_db w
  ∧ record_status vid (world_of run) = Some "PROCESSING"
  ∧ record_writes vid (events_of run) = ["PROCESSING"]
  ∧ job_writes vid (events_of run) = [].
Proof.
  intros Hv. cbv zeta.
  change (wp (process_video env vid path)
            (λ r w' t, r = inl (KeyError vid)
                       ∧ videos_db w' = videos_db w
                       ∧ record_status vid w' = Some "PROCESSING"
                       ∧ record_writes vid t = ["PROCESSING"]
                       ∧ job_writes vid t = []) w).
  unfold process_video, process_video_body.
  apply wp_try, wp_bind, wp_set_status_exact. intros w1.
  apply wp_bind, wp_intro. intros r w2 t2 Hrun.
  destruct (wp_at _ _ _ _ _ _ (quiet_VideoProcessor env path w1) Hrun) as (Ev & Ep & Ec).
  assert (Hv2 : videos_db w2 !! vid = None) by (by rewrite Ev).
  assert (Hfinal : ∀ t3,
             t3 = [] →
             wp (process_video_handler vid (KeyError vid))
               (λ r3 w3 t4,
                  r3 = inl (KeyError vid)
                  ∧ videos_db w3 = videos_db w
                  ∧ record_status vid w3 = Some "PROCESSING"
                  ∧ record_writes vid (([StatusWritten vid "PROCESSING" w1] ++ t2 ++ t3) ++ t4)
                    = ["PROCESSING"]
                  ∧ job_writes vid (([StatusWritten vid "PROCESSING" w1] ++ t2 ++ t3) ++ t4)
                    = []) w2).
  { intros t3 ->. unfold process_video_handler, set_job_status.
    apply wp_bind, wp_bind, wp_update_video_missing; [done |].
    split_and!; [done | by rewrite Ev | | |].
    - unfold record_status. rewrite Ep. subst w1. simpl. by rewrite lookup_insert_eq.
    - rewrite !record_writes_app, (record_writes_calls _ t2) by done.
      unfold record_writes. simpl. by rewrite bool_decide_true.
    - rewrite !job_writes_app, (job_writes_calls _ t2) by done. done. }
  destruct r as [e | processor].
  - unfold process_video_handler, set_job_status.
    apply wp_bind, wp_bind, wp_update_video_missing; [done |].
    split_and!; [done | by rewrite Ev | | |].
    + unfold record_status. rewrite Ep. subst w1. simpl. by rewrite lookup_insert_eq.
    + rewrite !record_writes_app, (record_writes_calls _ t2) by done.
      unfold record_writes. simpl. by rewrite bool_decide_true.
    + rewrite !job_writes_app, (job_writes_calls _ t2) by done. done.
  - apply wp_bind, wp_update_video_missing; [done |]. by apply Hfinal.
Qed.

Lemma process_video_unknown_job_witness :
  result_of (process_video scenario "id7" "uploads/id7_x.mp4" uploaded)
  = inl (KeyError "id7").
Proof.
  exact (proj1 (process_video_unknown_job scenario "id7" "uploads/id7_x.mp4" uploaded
                  eq_refl)).
Defined.

(** X7: when the source file does not exist, the Job fails at the first
    stage without any collaborator being called: the record goes from
    PROCESSING to ERROR, the message names the missing file, and neither the
    Highlights, the ContentPlans nor the files change. *)
Theorem missing_source_fails_job (env : Env) (vid path : string) (w : World)
    (v : VideoMetadata.t) :
  videos_db w !! vid = Some v →
  path ∉ files w →
  let run := process_video env vid path w in
  result_of run = inr ()
  ∧ calls_of (events_of run) = []
  ∧ record_writes vid (events_of run) = ["PROCESSING"; "ERROR"]
  ∧ videos_db (world_of run) !! vid
    = Some (VideoMetadata.set_error_message (Some ("Video file not found: " +:+ path))
              (VideoMetadata.set_processing_status "ERROR" v))
  ∧ record_status vid (world_of run) = Some "ERROR"
  ∧ highlights_db (world_of run) = highlights_db w
  ∧ content_plans_db (world_of run) = content_plans_db w
  ∧ files (world_of run) = files w.
Proof.
  intros Hv Hf. cbv zeta.
  change (wp (process_video env vid path)
            (λ r w' t,
               r = inr ()
               ∧ calls_of t = []
               ∧ record_writes vid t = ["PROCESSING"; "ERROR"]
               ∧ videos_db w' !! vid
                 = Some (VideoMetadata.set_error_message
                           (Some ("Video file not found: " +:+ path))
                           (VideoMetadata.set_processing_status "ERROR" v))
               ∧ record_status vid w' = Some "ERROR"
               ∧ highlights_db w' = highlights_db w
               ∧ content_plans_db w' = content_plans_db w
               ∧ files w' = files w) w).
  unfold process_video, process_video_body.
  apply wp_try, wp_bind, wp_set_status_exact. intros w1.
  apply wp_bind. unfold VideoProcessor. apply wp_get.
  rewrite bool_decide_false by done. apply wp_raise.
  unfold process_video_handler.
  apply wp_bind. eapply wp_set_job_status_exact; [exact Hv |].
  apply wp_bind. eapply wp_update_video_exact; [simpl; apply lookup_insert_eq |].
  apply wp_set_status_exact. intros w2.
  split_and!; try done.
  - unfold record_writes. simpl. by rewrite !bool_decide_true.
  - simpl. by rewrite lookup_insert_eq.
  - unfold record_status. simpl. by rewrite lookup_insert_eq.
Qed.

Lemma missing_source_fails_job_witness :
  record_writes "id0" (events_of (process_video scenario "id0" "uploads/gone.mp4" uploaded))
  = ["PROCESSING"; "ERROR"].
Proof.
  destruct (missing_source_fails_job scenario "id0" "uploads/gone.mp4" uploaded _
              uploaded_job) as (_ & _ & H & _).
  - apply (bool_decide_unpack _). vm_compute. exact I.
  - exact H.
Defined.

Lemma wp_analyze_video_fails env path clip e
    (Q : exn + json_value (option (list Moment.t)) → World → list Event → Prop) w :
  VideoFileClip env path = inr clip →
  highlights_reply env path = inl e →
  Q (inl e) w [Called (OpenVideo path); Called (HighlightInference path)] →
  wp (analyze_video env path) Q w.
Proof.
  intros Hc Hr H. unfold analyze_video.
  apply wp_bind, wp_call. rewrite Hc.
  apply wp_bind, wp_call. by rewrite Hr.
Qed.

(** X8: when highlight inference raises, the Job goes from ANALYZING straight
    to ERROR with the exception's text as its message; its duration and
    frame count were already recorded, and no Highlight and no ContentPlan is
    created. *)
Theorem inference_failure_fails_job (env : Env) (vid path : string) (w : World)
    (v : VideoMetadata.t) (clip : clip_info) (e : exn) :
  videos_db w !! vid = Some v →
  path ∈ files w →
  VideoFileClip env path = inr clip →
  highlights_reply env path = inl e →
  let run := process_video env vid path w in
  result_of run = inr ()
  ∧ calls_of (events_of run) = [OpenVideo path; OpenVideo path; HighlightInference path]
  ∧ record_writes vid (events_of run) = ["PROCESSING"; "ANALYZING"; "ERROR"]
  ∧ videos_db (world_of run) !! vid
    = Some (VideoMetadata.set_error_message (Some (exn_str e))
              (VideoMetadata.set_processing_status "ERROR"
                 (VideoMetadata.set_processing_status "PROCESSING"
                    (VideoMetadata.set_frames (Some (get_frame_count clip))
                       (VideoMetadata.set_duration (Some (get_duration clip)) v)))))
  ∧ record_status vid (world_of run) = Some "ERROR"
  ∧ highlights_db (world_of run) = highlights_db w
  ∧ content_plans_db (world_of run) = content_plans_db w.
Proof.
  intros Hv Hf Hclip Hreply. cbv zeta.
  change (wp (process_video env vid path)
            (λ r w' t,
               r = inr ()
               ∧ calls_of t = [OpenVideo path; OpenVideo path; HighlightInference path]
               ∧ record_writes vid t = ["PROCESSING"; "ANALYZING"; "ERROR"]
               ∧ videos_db w' !! vid
                 = Some (VideoMetadata.set_error_message (Some (exn_str e))
                           (VideoMetadata.set_processing_status "ERROR"
                              (VideoMetadata.set_processing_status "PROCESSING"
                                 (VideoMetadata.set_frames (Some (get_frame_count clip))
                                    (VideoMetadata.set_duration
                                       (Some (get_duration clip)) v)))))
               ∧ record_status vid w' = Some "ERROR"
               ∧ highlights_db w' = highlights_db w
               ∧ content_plans_db w' = content_plans_db w) w).
  unfold process_video, process_video_body.
  apply wp_try, wp_bind, wp_set_status_exact. intros w1.
  apply wp_bind. eapply wp_VideoProcessor_ok; [exact Hf | exact Hclip |].
  apply wp_bind. eapply wp_update_video_exact; [exact Hv |].
  apply wp_bind. eapply wp_update_video_exact; [simpl; apply lookup_insert_eq |].
  apply wp_bind. eapply wp_set_job_status_exact; [simpl; apply lookup_insert_eq |].
  apply wp_bind, wp_set_status_exact. intros w2.
  apply wp_bind. eapply wp_analyze_video_fails; [exact Hclip | exact Hreply |].
  unfold process_video_handler.
  apply wp_bind. eapply wp_set_job_status_exact; [simpl; apply lookup_insert_eq |].
  apply wp_bind. eapply wp_update_video_exact; [simpl; apply lookup_insert_eq |].
  apply wp_set_status_exact. intros w3.
  split_and!; try done.
  - unfold record_writes. simpl. by rewrite !bool_decide_true.
  - simpl. by rewrite lookup_insert_eq.
  - unfold record_status. simpl. by rewrite lookup_insert_eq.
Qed.

Lemma inference_failure_fails_job_witness :
  record_writes "id0"
    (events_of (process_video scenario_inference_down "id0" "uploads/id0_talk.mp4" uploaded))
  = ["PROCESSING"; "ANALYZING"; "ERROR"].
Proof.
  destruct (inference_failure_fails_job scenario_inference_down "id0"
              "uploads/id0_talk.mp4" uploaded _ (mk_clip 30 25)
              (CapabilityError "inference unavailable") uploaded_job)
    as (_ & _ & H & _).
  - apply (bool_decide_unpack _). vm_compute. exact I.
  - reflexivity.
  - reflexivity.
  - exact H.
Defined.

(** * What a run of [process_video] leaves alone *)

(** [solve] closes the goals [I w → I (f w)] of the state changes met. *)
Ltac inv_steps solve :=
  repeat first
    [ apply preserves_ret | apply preserves_raise | apply preserves_emit
    | apply preserves_call
    | apply preserves_modify; intros ? ?; solve
    | apply preserves_get; intros ?
    | match goal with
      | |- preserves _ (if ?b then _ else _) => destruct b
      | |- preserves _ (match ?x with _ => _ end) => destruct x
      end
    | apply preserves_bind; [| intros ?] ].

Lemma preserves_extract_highlights I env vid :
  (∀ i m, preserves I (extract_highlight env vid i m)) →
  ∀ ms i acc, preserves I (extract_highlights env vid i ms acc).
Proof.
  intros Hone. induction ms as [| m ms IH]; intros i acc; simpl.
  - apply preserves_ret.
  - apply preserves_bind; [apply Hone | intros ?; apply IH].
Qed.

Lemma frame_status vid w0 w x :
  others_untouched vid w0 w ∧ highlights_grow vid w0 w →
  others_untouched vid w0 (with_processing_status (<[vid := x]>) w)
  ∧ highlights_grow vid w0 (with_processing_status (<[vid := x]>) w).
Proof.
  intros [Ho Hg]. split; [| exact Hg]. intros other Hne.
  destruct (Ho other Hne) as (? & ? & ?). simpl. by rewrite lookup_insert_ne.
Qed.

Lemma frame_videos vid w0 w x :
  others_untouched vid w0 w ∧ highlights_grow vid w0 w →
  others_untouched vid w0 (with_videos (<[vid := x]>) w)
  ∧ highlights_grow vid w0 (with_videos (<[vid := x]>) w).
Proof.
  intros [Ho Hg]. split; [| exact Hg]. intros other Hne.
  destruct (Ho other Hne) as (? & ? & ?). simpl. by rewrite lookup_insert_ne.
Qed.

Lemma frame_plans vid w0 w x :
  others_untouched vid w0 w ∧ highlights_grow vid w0 w →
  others_untouched vid w0 (with_content_plans (<[vid := x]>) w)
  ∧ highlights_grow vid w0 (with_content_plans (<[vid := x]>) w).
Proof.
  intros [Ho Hg]. split; [| exact Hg]. intros other Hne.
  destruct (Ho other Hne) as (? & ? & ?). simpl. by rewrite lookup_insert_ne.
Qed.

Lemma frame_highlight vid w0 w h :
  HighlightClip.video_id h = vid →
  others_untouched vid w0 w ∧ highlights_grow vid w0 w →
  others_untouched vid w0 (with_highlights (<[HighlightClip.id h := h]>) w)
  ∧ highlights_grow vid w0 (with_highlights (<[HighlightClip.id h := h]>) w).
Proof.
  intros Hvid [Ho Hg]. split; [exact Ho |]. intros k. simpl.
  destruct (decide (HighlightClip.id h = k)) as [<- | Hne].
  - rewrite lookup_insert_eq. split; [eauto |]. intros h' [= <-]. auto.
  - rewrite lookup_insert_ne by done. apply Hg.
Qed.

Ltac frame_solve :=
  first [ assumption
        | by apply frame_status | by apply frame_videos | by apply frame_plans
        | by apply (frame_highlight _ _ _ (HighlightClip.mk _ _ _ _ _ _ _ _ _)) ].

(** X9: a run of [process_video] for one Job, whatever its collaborators do
    and however it ends, leaves every other Job's entry, ContentPlan and
    status record as they were, removes no Highlight, and every Highlight it
    adds or replaces is owned by its own Job and stored under its own
    identifier. *)
Theorem process_video_frame (env : Env) (vid path : string) (w : World) :
  let w' := world_of (process_video env vid path w) in
  others_untouched vid w w' ∧ highlights_grow vid w w'.
Proof.
  cbv zeta.
  assert (preserves (λ w', others_untouched vid w w' ∧ highlights_grow vid w w')
            (process_video env vid path)) as Hp.
  { unfold process_video. apply preserves_try.
    - unfold process_video_body, set_status, VideoProcessor, update_video,
        set_job_status, update_video, analyze_video, generate_content_plan.
      repeat first
        [ apply preserves_extract_highlights; intros ? ?;
          unfold extract_highlight, uuid4, extract_clip, extract_thumbnail,
            generate_subtitles, write_file
        | progress inv_steps frame_solve ].
    - intros e. unfold process_video_handler, set_status, set_job_status, update_video.
      inv_steps frame_solve. }
  apply Hp. split.
  - by intros other _.
  - intros k. split; [done | auto].
Qed.

(** * The content-plan file *)

Lemma other_directory vid rest dir :
  dir = "clips/" ∨ dir = "thumbnails/" ∨ dir = "subtitles/" →
  dir +:+ rest ≠ plan_path vid.
Proof.
  unfold plan_path. intros [-> | [-> | ->]] H;
    rewrite !string_app_cons in H; discriminate H.
Qed.

Lemma plan_file_add vid (fs0 : gset string) w p :
  p ≠ plan_path vid →
  (plan_path vid ∈ files w → plan_path vid ∈ fs0) →
  plan_path vid ∈ files (with_files (λ fs, {[p]} ∪ fs) w) → plan_path vid ∈ fs0.
Proof. simpl. intros Hne Hw [Hin | Hin]%elem_of_union; [set_solver | auto]. Qed.

Ltac plan_file_solve :=
  first [ assumption
        | apply plan_file_add; [apply other_directory; auto | assumption] ].

(** X10: no run of [process_video] writes the file whose path it records as
    the Job's [content_plan_path]: if [content_plans/<id>_content_plan.json]
    does not exist before the run, it does not exist after it. *)
Theorem content_plan_file_never_written (env : Env) (vid path : string) (w : World) :
  plan_path vid ∉ files w →
  plan_path vid ∉ files (world_of (process_video env vid path w)).
Proof.
  intros Hnot Hin. apply Hnot. revert Hin.
  assert (preserves (λ w', plan_path vid ∈ files w' → plan_path vid ∈ files w)
            (process_video env vid path)) as Hp.
  { unfold process_video. apply preserves_try.
    - unfold process_video_body, set_status, VideoProcessor, update_video,
        set_job_status, update_video, analyze_video, generate_content_plan.
      repeat first
        [ apply preserves_extract_highlights; intros ? ?;
          unfold extract_highlight, uuid4, extract_clip, extract_thumbnail,
            generate_subtitles, write_file
        | progress inv_steps plan_file_solve ].
    - intros e. unfold process_video_handler, set_status, set_job_status, update_video.
      inv_steps plan_file_solve. }
  by apply Hp.
Qed.

Lemma content_plan_file_never_written_witness :
  plan_path "id0" ∉ files processed.
Proof.
  apply (content_plan_file_never_written scenario "id0" "uploads/id0_talk.mp4" uploaded).
  apply (bool_decide_unpack _). vm_compute. exact I.
Defined.

(** * Shape of a content plan *)

Lemma parsed_posts_clip_ids env hs h0 items :
  ∀ i posts,
    parsed_posts env hs h0 i items = inr posts →
    ContentPost.clip_id <$> posts = take (length items) (drop i (HighlightClip.id <$> hs)).
Proof.
  induction items as [| item items IH]; intros i posts.
  - by intros [= <-].
  - intros [[Hlen ->] | (Hlen & fields & post & rest & _ & Hpost & Hrest & ->)]%parsed_posts_cons.
    + rewrite drop_ge by (rewrite length_fmap; lia). by rewrite take_nil.
    + apply ContentPost_init_inr in Hpost as (t & c & p & d & h & _ & _ & _ & _ & _ & ->).
      destruct (lookup_lt_is_Some_2 hs i) as [hh Hh]; [lia |].
      rewrite Hh. cbn [default]. rewrite fmap_cons. cbn [ContentPost.clip_id].
      rewrite (IH _ _ Hrest).
      rewrite (drop_S (HighlightClip.id <$> hs) (HighlightClip.id hh) i)
        by (by rewrite list_lookup_fmap, Hh).
      done.
Qed.

(** A post of the decoded branch lacks a date exactly when its item gave
    JSON null for it. *)
Lemma parsed_posts_dates env hs h0 items :
  ∀ i posts,
    parsed_posts env hs h0 i items = inr posts →
    ∀ j p, posts !! j = Some p →
           ContentPost.suggested_posting_date p = None
           ↔ ∃ fields, items !! j = Some (JObject fields)
                       ∧ PlanItem.suggested_posting_date fields = Null.
Proof.
  induction items as [| item items IH]; intros i posts.
  - by intros [= <-] j p.
  - intros [[Hlen ->] | (Hlen & fields & post & rest & -> & Hpost & Hrest & ->)]%parsed_posts_cons
      j p Hj; [done |].
    destruct j as [| j]; [| by apply (IH _ _ Hrest)].
    injection Hj as ->.
    apply ContentPost_init_inr in Hpost as (t & c & pl & d & h & _ & _ & _ & Hd & _ & ->).
    cbn [ContentPost.suggested_posting_date lookup list_lookup].
    split.
    + intros ->. exists fields. split; [done |].
      by destruct (PlanItem.suggested_posting_date fields).
    + intros (fields' & [= <-] & Hnull). rewrite Hnull in Hd. by injection Hd as <-.
Qed.

Lemma accepted_init env clip_id title caption platform date hashtags fields :
  accepted (JObject fields) = true →
  ∃ post,
    ContentPost_init env clip_id
      (required title (PlanItem.title fields))
      (required caption (PlanItem.caption fields))
      (required platform (PlanItem.platform fields))
      (optional date (PlanItem.suggested_posting_date fields))
      (required hashtags (PlanItem.hashtags fields)) = inr post.
Proof.
  unfold accepted. rewrite !andb_true_iff. intros [[[[Ht Hc] Hp] Hd] Hh].
  destruct (PlanItem.title fields); try discriminate Ht;
    destruct (PlanItem.caption fields); try discriminate Hc;
    destruct (PlanItem.platform fields); try discriminate Hp;
    destruct (PlanItem.suggested_posting_date fields); try discriminate Hd;
    destruct (PlanItem.hashtags fields); try discriminate Hh;
    by eexists.
Qed.

Lemma required_accepts {A} (d : A) x a : required d x = Some a → accepts_required x = true.
Proof. by destruct x. Qed.

Lemma optional_accepts {A} (d : A) x a : optional d x = Some a → accepts_optional x = true.
Proof. by destruct x. Qed.

Lemma rejected_init env clip_id title caption platform date hashtags fields :
  accepted (JObject fields) = false →
  ∃ names,
    names ≠ []
    ∧ ContentPost_init env clip_id
        (required title (PlanItem.title fields))
        (required caption (PlanItem.caption fields))
        (required platform (PlanItem.platform fields))
        (optional date (PlanItem.suggested_posting_date fields))
        (required hashtags (PlanItem.hashtags fields))
      = inl (ValidationError (validation_message env "ContentPost" names)).
Proof.
  unfold accepted, ContentPost_init. intros Hrej.
  destruct (required title _) as [t |] eqn:Ht;
    destruct (required caption _) as [c |] eqn:Hc;
    destruct (required platform _) as [p |] eqn:Hp;
    destruct (optional date _) as [d |] eqn:Hd;
    destruct (required hashtags _) as [h |] eqn:Hh;
    try (eexists; split; [| reflexivity]; discriminate).
  apply required_accepts in Ht, Hc, Hp, Hh. apply optional_accepts in Hd.
  by rewrite Ht, Hc, Hp, Hd, Hh in Hrej.
Qed.

Lemma reached_items (hs : list HighlightClip.t) i (item : json_value PlanItem.t) items :
  ¬ length hs ≤ i →
  take (length hs - i) (item :: items) = item :: take (length hs - S i) items.
Proof. intros Hlen. by replace (length hs - i) with (S (length hs - S i)) by lia. Qed.

(** The loop ends well when every item it reaches is accepted. *)
Lemma parsed_posts_accepted env hs h0 items :
  ∀ i, forallb accepted (take (length hs - i) items) = true →
       ∃ posts, parsed_posts env hs h0 i items = inr posts.
Proof.
  induction items as [| item items IH]; intros i Hok; [by eexists |].
  cbn [parsed_posts]. case_bool_decide as Hlen; [by eexists |].
  rewrite reached_items in Hok by done. cbn [forallb] in Hok.
  apply andb_true_iff in Hok as [Hitem Hrest].
  destruct item as [fields |]; [| discriminate].
  destruct (accepted_init env (HighlightClip.id (default h0 (hs !! i)))
              (HighlightClip.title (default h0 (hs !! i))) "Check out this highlight!"
              "Instagram" (strftime_days_ahead env (i + 1))
              ["video"; "highlights"; "content"] fields Hitem) as [post ->].
  destruct (IH (S i) Hrest) as [posts ->]. by eexists.
Qed.

(** It raises as soon as it reaches an item that is not. *)
Lemma parsed_posts_rejected env hs h0 items :
  ∀ i, forallb accepted (take (length hs - i) items) = false →
       ∃ e, parsed_posts env hs h0 i items = inl e
            ∧ (e = AttributeError "object has no attribute 'get'"
               ∨ ∃ names, names ≠ []
                          ∧ e = ValidationError (validation_message env "ContentPost" names)).
Proof.
  induction items as [| item items IH]; intros i Hrej.
  { by rewrite take_nil in Hrej. }
  cbn [parsed_posts]. case_bool_decide as Hlen.
  { by replace (length hs - i) with 0 in Hrej by lia. }
  rewrite reached_items in Hrej by done. cbn [forallb] in Hrej.
  destruct item as [fields |]; [| eexists; split; [reflexivity | by left]].
  destruct (accepted (JObject fields)) eqn:Hitem.
  - destruct (accepted_init env (HighlightClip.id (default h0 (hs !! i)))
                (HighlightClip.title (default h0 (hs !! i))) "Check out this highlight!"
                "Instagram" (strftime_days_ahead env (i + 1))
                ["video"; "highlights"; "content"] fields Hitem) as [post ->].
    destruct (IH (S i) Hrej) as (e & -> & He). by exists e.
  - destruct (rejected_init env (HighlightClip.id (default h0 (hs !! i)))
                (HighlightClip.title (default h0 (hs !! i))) "Check out this highlight!"
                "Instagram" (strftime_days_ahead env (i + 1))
                ["video"; "highlights"; "content"] fields Hitem) as (names & Hne & ->).
    eexists. split; [reflexivity |]. right. by exists names.
Qed.

Lemma generate_content_plan_returns (env : Env) (hs : list HighlightClip.t) (w : World)
    (plan : ContentPlan.t) :
  result_of (generate_content_plan env hs w) = inr plan →
  world_of (generate_content_plan env hs w) = w
  ∧ events_of (generate_content_plan env hs w) = [Called (ContentPlanInference hs)]
  ∧ (∃ h0, head hs = Some h0
           ∧ ContentPlan.video_id plan = HighlightClip.video_id h0)
  ∧ ContentPlan.title plan
    = "Content Plan for " +:+ pretty (length hs) +:+ " Highlights"
  ∧ (ContentPost.clip_id <$> ContentPlan.posts plan) `prefix_of` (HighlightClip.id <$> hs).
Proof.
  unfold generate_content_plan. destruct hs as [| h0 hs']; [discriminate |].
  pose proof (basic_posts_clip_ids env (h0 :: hs') 0) as Hids.
  unfold call, emit, mbind, M_bind, bind, result_of, world_of, events_of.
  cbn [fst snd].
  destruct (content_plan_reply env (h0 :: hs')) as [e | [[fields |] |]];
    cbn -[basic_posts parsed_posts]; try discriminate.
  - destruct (parsed_posts env (h0 :: hs') h0 0 (default [] fields)) as [e | posts] eqn:Hposts;
      cbn -[basic_posts parsed_posts]; [discriminate |]. intros [= <-].
    cbn -[basic_posts parsed_posts].
    split_and!; try done; [by eexists |].
    rewrite (parsed_posts_clip_ids _ _ _ _ _ _ Hposts). rewrite drop_0.
    exists (drop (length (default [] fields)) (HighlightClip.id <$> h0 :: hs')).
    by rewrite take_drop.
  - intros [= <-]. cbn -[basic_posts parsed_posts].
    split_and!;
      first [ done | by eexists
            | exists []; rewrite app_nil_r; symmetry; exact Hids ].
Qed.

(** X11: whenever [generate_content_plan] returns a plan, it has left the
    state alone and made exactly one inference call; the plan carries the
    Job identifier of the first Highlight and a title counting all
    Highlights; and its posts refer, in order and without gaps, to the first
    Highlights of the input, so there are never more posts than Highlights. *)
Theorem generate_content_plan_shape (env : Env) (hs : list HighlightClip.t) (w : World)
    (plan : ContentPlan.t) :
  result_of (generate_content_plan env hs w) = inr plan →
  world_of (generate_content_plan env hs w) = w
  ∧ events_of (generate_content_plan env hs w) = [Called (ContentPlanInference hs)]
  ∧ (∃ h0, head hs = Some h0
           ∧ ContentPlan.video_id plan = HighlightClip.video_id h0)
  ∧ ContentPlan.title plan
    = "Content Plan for " +:+ pretty (length hs) +:+ " Highlights"
  ∧ (ContentPost.clip_id <$> ContentPlan.posts plan) `prefix_of` (HighlightClip.id <$> hs)
  ∧ length (ContentPlan.posts plan) ≤ length hs.
Proof.
  intros Hrun.
  destruct (generate_content_plan_returns env hs w plan Hrun)
    as (Hw & Hev & Hhead & Htitle & Hprefix).
  split_and!; try done.
  apply prefix_length in Hprefix. by rewrite !length_fmap in Hprefix.
Qed.

Lemma generate_content_plan_shape_witness :
  ∃ plan,
    result_of (generate_content_plan scenario two_clips uploaded) = inr plan
    ∧ world_of (generate_content_plan scenario two_clips uploaded) = uploaded.
Proof.
  eexists. split; [vm_compute; reflexivity |].
  eapply (generate_content_plan_shape scenario two_clips uploaded).
  vm_compute. reflexivity.
Defined.

(** X12: when the decoded reply holds at least as many items as there are
    Highlights and each item the loop reaches (one per Highlight) is an
    object whose values the [ContentPost] fields accept, the plan has
    exactly one post per Highlight, in highlight order; items beyond the
    Highlights are ignored, whatever they are.  A post is stored without a
    posting date exactly when its item gave JSON null for it. *)
Theorem enough_items_one_post_each (env : Env) (hs : list HighlightClip.t) (w : World)
    (items : list (json_value PlanItem.t)) :
  hs ≠ [] →
  content_plan_reply env hs = inr (Some (JObject (Some items))) →
  length hs ≤ length items →
  forallb accepted (take (length hs) items) = true →
  ∃ plan,
    result_of (generate_content_plan env hs w) = inr plan
    ∧ ContentPost.clip_id <$> ContentPlan.posts plan = HighlightClip.id <$> hs
    ∧ length (ContentPlan.posts plan) = length hs
    ∧ (∀ i p, ContentPlan.posts plan !! i = Some p →
              ContentPost.suggested_posting_date p = None
              ↔ ∃ fields, items !! i = Some (JObject fields)
                          ∧ PlanItem.suggested_posting_date fields = Null).
Proof.
  intros Hne Hreply Hlen Hok. destruct hs as [| h0 hs']; [done |].
  destruct (parsed_posts_accepted env (h0 :: hs') h0 items 0) as [posts Hposts].
  { by rewrite Nat.sub_0_r. }
  unfold generate_content_plan, call, emit, mbind, M_bind, bind, result_of.
  cbn [fst snd]. rewrite Hreply. cbn -[parsed_posts]. rewrite Hposts. cbn.
  eexists. split; [reflexivity |].
  cbn [ContentPlan.posts].
  assert (ContentPost.clip_id <$> posts = HighlightClip.id <$> h0 :: hs') as Hids.
  { rewrite (parsed_posts_clip_ids _ _ _ _ _ _ Hposts), drop_0.
    apply take_ge. rewrite length_fmap. exact Hlen. }
  split_and!.
  - exact Hids.
  - rewrite <- (length_fmap ContentPost.clip_id), Hids. by rewrite length_fmap.
  - exact (parsed_posts_dates _ _ _ _ _ _ Hposts).
Qed.

Lemma enough_items_one_post_each_witness :
  ∃ plan,
    result_of
      (generate_content_plan
         (scenario_with (λ _, inr None) (λ _ _ _, inr ())
            (λ _, inr (Some (JObject (Some (one_item ++ [null_date_item; JOther]))))))
         two_clips uploaded) = inr plan
    ∧ ContentPost.clip_id <$> ContentPlan.posts plan = HighlightClip.id <$> two_clips
    ∧ length (ContentPlan.posts plan) = length two_clips.
Proof.
  destruct (enough_items_one_post_each
              (scenario_with (λ _, inr None) (λ _ _ _, inr ())
                 (λ _, inr (Some (JObject (Some (one_item ++ [null_date_item; JOther]))))))
              two_clips uploaded (one_item ++ [null_date_item; JOther]))
    as (plan & Hrun & Hids & Hlen & _).
  - discriminate.
  - reflexivity.
  - simpl. lia.
  - reflexivity.
  - exists plan. by split_and!.
Defined.

(** X21: when the reply decodes to an object and one of the items the loop
    reaches (the first item for each Highlight) is not an object, or gives a
    value its [ContentPost] field rejects (JSON null for anything but the
    posting date), [generate_content_plan] raises [AttributeError] or
    pydantic's [ValidationError].  Its [except] clause catches neither, so
    no plan is returned, not even the default one; the state is untouched. *)
Theorem rejected_item_fails_plan (env : Env) (hs : list HighlightClip.t) (w : World)
    (items : list (json_value PlanItem.t)) :
  hs ≠ [] →
  content_plan_reply env hs = inr (Some (JObject (Some items))) →
  forallb accepted (take (length hs) items) = false →
  ∃ e,
    generate_content_plan env hs w = (inl e, w, [Called (ContentPlanInference hs)])
    ∧ (e = AttributeError "object has no attribute 'get'"
       ∨ ∃ names, names ≠ []
                  ∧ e = ValidationError (validation_message env "ContentPost" names)).
Proof.
  intros Hne Hreply Hrej. destruct hs as [| h0 hs']; [done |].
  destruct (parsed_posts_rejected env (h0 :: hs') h0 items 0) as (e & Hposts & He).
  { by rewrite Nat.sub_0_r. }
  exists e. split; [| exact He].
  unfold generate_content_plan, call, emit, mbind, M_bind, bind.
  cbn [fst snd]. rewrite Hreply. cbn -[parsed_posts]. by rewrite Hposts.
Qed.

Lemma rejected_item_fails_plan_witness :
  ∃ e,
    result_of
      (generate_content_plan
         (scenario_with (λ _, inr None) (λ _ _ _, inr ())
            (λ _, inr (Some (JObject (Some (one_item ++ [null_title_item]))))))
         two_clips uploaded) = inl e.
Proof.
  destruct (rejected_item_fails_plan
              (scenario_with (λ _, inr None) (λ _ _ _, inr ())
                 (λ _, inr (Some (JObject (Some (one_item ++ [null_title_item]))))))
              two_clips uploaded (one_item ++ [null_title_item]))
    as (e & Hrun & _).
  - discriminate.
  - reflexivity.
  - reflexivity.
  - exists e. by rewrite Hrun.
Defined.

(** * How a run of [process_video] ends *)

Lemma result_of_bind {A B} (m : M A) (k : A → M B) w :
  result_of ((m ≫= k) w)
  = match result_of (m w) with
    | inl e => inl e
    | inr a => result_of (k a (world_of (m w)))
    end.
Proof.
  unfold mbind, M_bind, bind, result_of, world_of.
  destruct (m w) as [[[e | a] w1] t1]; [done |]. cbn [fst snd].
  by destruct (k a w1) as [[r w2] t2].
Qed.

Lemma extract_highlight_owned env vid i m w h :
  result_of (extract_highlight env vid i m w) = inr h → HighlightClip.video_id h = vid.
Proof.
  change (wp (extract_highlight env vid i m)
            (λ r _ _, r = inr h → HighlightClip.video_id h = vid) w).
  unfold extract_highlight, uuid4, extract_clip, extract_thumbnail, generate_subtitles,
    write_file.
  wp_walk; by intros [= <-].
Qed.

Lemma extract_highlights_owned env vid ms :
  ∀ i acc w hcs,
    Forall (λ h, HighlightClip.video_id h = vid) acc →
    result_of (extract_highlights env vid i ms acc w) = inr hcs →
    Forall (λ h, HighlightClip.video_id h = vid) hcs.
Proof.
  induction ms as [| m ms IH]; intros i acc w hcs Hacc; cbn [extract_highlights].
  - by intros [= <-].
  - rewrite result_of_bind.
    destruct (result_of (extract_highlight env vid i m w)) as [e | h] eqn:Hh; [done |].
    apply IH. apply Forall_app. split; [done |].
    constructor; [| constructor]. by apply (extract_highlight_owned env vid i m w).
Qed.

Lemma job_tables_refl w : job_tables_of w w.
Proof. done. Qed.

Lemma tables_VideoProcessor env path w0 :
  preserves (job_tables_of w0) (VideoProcessor env path).
Proof. unfold VideoProcessor. inv_steps assumption. Qed.

Lemma tables_analyze_video env path w0 :
  preserves (job_tables_of w0) (analyze_video env path).
Proof. unfold analyze_video. inv_steps assumption. Qed.

Lemma tables_extract_highlights env vid w0 ms i acc :
  preserves (job_tables_of w0) (extract_highlights env vid i ms acc).
Proof.
  apply preserves_extract_highlights. intros ? ?.
  unfold extract_highlight, uuid4, extract_clip, extract_thumbnail, generate_subtitles,
    write_file.
  inv_steps assumption.
Qed.

Lemma tables_generate_content_plan env hs w0 :
  preserves (job_tables_of w0) (generate_content_plan env hs).
Proof. unfold generate_content_plan. inv_steps assumption. Qed.

Lemma handler_outcome vid e v0 cp w :
  videos_db w !! vid = Some v0 →
  content_plans_db w = cp →
  wp (process_video_handler vid e)
     (λ _ w' _,
        videos_db w' !! vid
        = Some (VideoMetadata.set_error_message (Some (exn_str e))
                  (VideoMetadata.set_processing_status "ERROR" v0))
        ∧ content_plans_db w' = cp) w.
Proof.
  intros Hv Hc. unfold process_video_handler.
  apply wp_bind. eapply wp_set_job_status_exact; [exact Hv |].
  apply wp_bind. eapply wp_update_video_exact; [simpl; apply lookup_insert_eq |].
  apply wp_set_status_exact. intros w'. split; [| done].
  simpl. by rewrite lookup_insert_eq.
Qed.

(** The two ways a run for a registered Job can end. *)
Lemma process_video_outcome env vid path w v :
  videos_db w !! vid = Some v →
  run_outcome vid v w (world_of (process_video env vid path w)).
Proof.
  intros Hv.
  set (Post := run_outcome vid v w).
  change (wp (process_video env vid path) (λ _ w' _, Post w') w).
  assert (Herr : ∀ e v0 w2,
             videos_db w2 !! vid = Some v0 →
             content_plans_db w2 = content_plans_db w →
             (v0 = v
              ∨ ∃ clip,
                  v0 = VideoMetadata.set_processing_status "PROCESSING"
                         (VideoMetadata.set_frames (Some (get_frame_count clip))
                            (VideoMetadata.set_duration (Some (get_duration clip)) v))) →
             wp (process_video_handler vid e) (λ _ w' _, Post w') w2).
  { intros e v0 w2 Hv2 Hc2 Hv0. eapply wp_mono; [| by apply handler_outcome].
    simpl. intros _ w' _ [H1 H2]. right. exists e, v0. rewrite H2. auto. }
  unfold Post, run_outcome.
  unfold process_video, process_video_body.
  apply wp_try, wp_bind, wp_set_status_exact. intros w1.
  apply wp_bind, wp_intro. intros r w2 t2 Hrun2.
  destruct (preserves_at _ _ _ _ _ _ (tables_VideoProcessor env path w1)
              (job_tables_refl w1) Hrun2) as (Ev2 & Ec2 & _).
  subst w1. cbn [videos_db content_plans_db with_processing_status] in Ev2, Ec2.
  destruct r as [e | clip].
  { apply (Herr e v w2); [by rewrite Ev2 | done | by left ]. }
  apply wp_bind. eapply wp_update_video_exact; [by rewrite Ev2 |].
  apply wp_bind. eapply wp_update_video_exact; [simpl; apply lookup_insert_eq |].
  apply wp_bind. eapply wp_set_job_status_exact; [simpl; apply lookup_insert_eq |].
  apply wp_bind, wp_set_status_exact. intros w3.
  set (v3 := VideoMetadata.set_processing_status "PROCESSING"
               (VideoMetadata.set_frames (Some (get_frame_count clip))
                  (VideoMetadata.set_duration (Some (get_duration clip)) v))).
  assert (Hv3 : videos_db w3 !! vid = Some v3) by (subst w3; simpl; apply lookup_insert_eq).
  assert (Hc3 : content_plans_db w3 = content_plans_db w) by (subst w3; simpl; exact Ec2).
  clearbody w3. clear Ev2 Ec2 Hrun2.
  apply wp_bind, wp_intro. intros r w4 t4 Hrun4.
  destruct (preserves_at _ _ _ _ _ _ (tables_analyze_video env path w3)
              (job_tables_refl w3) Hrun4) as (Ev4 & Ec4 & _).
  destruct r as [e | analysis_result].
  { apply (Herr e v3 w4); [by rewrite Ev4 | by rewrite Ec4 | right; by exists clip ]. }
  apply wp_bind, wp_set_status_exact. intros w5.
  assert (Hv5 : videos_db w5 !! vid = Some v3) by (subst w5; simpl; by rewrite Ev4).
  assert (Hc5 : content_plans_db w5 = content_plans_db w)
    by (subst w5; simpl; by rewrite Ec4).
  clearbody w5. clear Ev4 Ec4 Hrun4 Hv3 Hc3.
  apply wp_bind.
  destruct analysis_result as [fields |]; [apply wp_ret | apply wp_raise].
  2: { apply (Herr _ v3 w5); [done | done | right; by exists clip ]. }
  apply wp_bind, wp_intro. intros r w6 t6 Hrun6.
  destruct (preserves_at _ _ _ _ _ _
              (tables_extract_highlights env vid w5 (default [] fields) 0 [])
              (job_tables_refl w5) Hrun6) as (Ev6 & Ec6 & _).
  destruct r as [e | highlight_clips].
  { apply (Herr e v3 w6); [by rewrite Ev6 | by rewrite Ec6 | right; by exists clip ]. }
  assert (Howned : Forall (λ h, HighlightClip.video_id h = vid) highlight_clips).
  { apply (extract_highlights_owned env vid (default [] fields) 0 [] w5); [constructor |].
    unfold result_of. by rewrite Hrun6. }
  apply wp_bind, wp_set_status_exact. intros w7.
  assert (Hv7 : videos_db w7 !! vid = Some v3) by (subst w7; simpl; by rewrite Ev6).
  assert (Hc7 : content_plans_db w7 = content_plans_db w)
    by (subst w7; simpl; by rewrite Ec6).
  clearbody w7. clear Ev6 Ec6 Hrun6 Hv5 Hc5.
  apply wp_bind, wp_intro. intros r w8 t8 Hrun8.
  destruct (preserves_at _ _ _ _ _ _ (tables_generate_content_plan env highlight_clips w7)
              (job_tables_refl w7) Hrun8) as (Ev8 & Ec8 & _).
  destruct r as [e | content_plan].
  { apply (Herr e v3 w8); [by rewrite Ev8 | by rewrite Ec8 | right; by exists clip ]. }
  destruct (generate_content_plan_returns env highlight_clips w7 content_plan)
    as (_ & _ & (h0 & Hhead & Hvid) & _ & Hprefix);
    [unfold result_of; by rewrite Hrun8 |].
  apply wp_bind, wp_modify.
  apply wp_bind. eapply wp_update_video_exact; [simpl; by rewrite Ev8 |].
  apply wp_bind. eapply wp_update_video_exact; [simpl; apply lookup_insert_eq |].
  apply wp_bind. eapply wp_set_job_status_exact; [simpl; apply lookup_insert_eq |].
  apply wp_set_status_exact. intros w9.
  left. exists clip, (length highlight_clips), content_plan. subst w9. simpl.
  rewrite !lookup_insert_eq. split_and!; try done.
  - destruct highlight_clips; [discriminate | simpl; lia].
  - destruct highlight_clips as [| h hs]; [discriminate |].
    injection Hhead as <-. rewrite Hvid. by inversion Howned.
  - apply prefix_length in Hprefix. by rewrite !length_fmap in Hprefix.
Qed.

(** X13: the background task of a registered Job never lets an exception
    escape, and it ends with the Job's own field and the status record both
    at COMPLETED or both at ERROR. *)
Theorem process_video_ends_terminal (env : Env) (vid path : string) (w : World)
    (v : VideoMetadata.t) :
  videos_db w !! vid = Some v →
  let run := process_video env vid path w in
  result_of run = inr ()
  ∧ ((job_status vid (world_of run) = Some "COMPLETED"
      ∧ record_status vid (world_of run) = Some "COMPLETED")
     ∨ (job_status vid (world_of run) = Some "ERROR"
        ∧ record_status vid (world_of run) = Some "ERROR")).
Proof.
  intros Hv. cbv zeta.
  destruct (process_video_spec env vid path w v Hv) as (Hr & k & _ & _ & _ & Hj & Hs).
  split; [exact Hr |]. rewrite Hj, Hs. case_bool_decide; auto.
Qed.

Lemma process_video_ends_terminal_witness :
  result_of (process_video scenario_cut_fails "id0" "uploads/id0_talk.mp4" uploaded)
  = inr ().
Proof.
  exact (proj1 (process_video_ends_terminal scenario_cut_fails "id0"
                  "uploads/id0_talk.mp4" uploaded _ uploaded_job)).
Defined.

(** X14: a Job that ends COMPLETED has at least one Highlight counted, its
    duration, frame count and content-plan path recorded, its error message
    untouched, and Fetch ContentPlan answers a plan that carries the Job's
    identifier and has no more posts than Highlights were counted. *)
Theorem completed_job_has_plan (env : Env) (vid path : string) (w : World)
    (v : VideoMetadata.t) :
  videos_db w !! vid = Some v →
  let w' := world_of (process_video env vid path w) in
  job_status vid w' = Some "COMPLETED" →
  ∃ v' plan n,
    videos_db w' !! vid = Some v'
    ∧ result_of (get_content_plan vid w') = inr plan
    ∧ ContentPlan.video_id plan = vid
    ∧ VideoMetadata.highlights_count v' = Some n
    ∧ 1 ≤ n
    ∧ length (ContentPlan.posts plan) ≤ n
    ∧ VideoMetadata.content_plan_path v' = Some (plan_path vid)
    ∧ is_Some (VideoMetadata.duration v')
    ∧ is_Some (VideoMetadata.frames v')
    ∧ VideoMetadata.error_message v' = VideoMetadata.error_message v.
Proof.
  intros Hv. cbv zeta. unfold job_status.
  destruct (process_video_outcome env vid path w v Hv)
    as [(clip & n & plan & Hv' & Hn & Hp & Hvid & Hlen) | (e & v0 & Hv' & _)];
    rewrite Hv'; [intros _ | by intros [= ?]].
  eexists _, plan, n. split; [reflexivity |].
  split_and!; try done; try (by eexists).
  unfold get_content_plan, mbind, M_bind, bind, get, result_of. cbn [fst snd].
  by rewrite Hv', Hp.
Qed.

Lemma completed_job_has_plan_witness :
  ∃ n, VideoMetadata.highlights_count <$> videos_db processed !! "id0" = Some (Some n)
       ∧ 1 ≤ n.
Proof.
  destruct (completed_job_has_plan scenario "id0" "uploads/id0_talk.mp4" uploaded _
              uploaded_job) as (v' & plan & n & Hv' & _ & _ & Hn & Hle & _).
  - vm_compute. reflexivity.
  - exists n. fold processed in Hv'. by rewrite Hv', <- Hn.
Defined.

(** X15: a Job that ends in ERROR does so because the [try] block raised,
    and its error message is the text of the exception that block raised;
    the Job keeps the highlight count and content-plan path it had, and the run
    stored no ContentPlan: the plans are those from before the run, so a
    Job that had none gets "Content plan not found" from Fetch ContentPlan. *)
Theorem failed_job_has_message_and_no_plan (env : Env) (vid path : string) (w : World)
    (v : VideoMetadata.t) :
  videos_db w !! vid = Some v →
  let w' := world_of (process_video env vid path w) in
  job_status vid w' = Some "ERROR" →
  ∃ v' e,
    result_of (process_video_body env vid path w) = inl e
    ∧ videos_db w' !! vid = Some v'
    ∧ VideoMetadata.error_message v' = Some (exn_str e)
    ∧ VideoMetadata.highlights_count v' = VideoMetadata.highlights_count v
    ∧ VideoMetadata.content_plan_path v' = VideoMetadata.content_plan_path v
    ∧ content_plans_db w' = content_plans_db w
    ∧ (content_plans_db w !! vid = None →
       result_of (get_content_plan vid w')
       = inl (HTTPException 404 "Content plan not found")).
Proof.
  intros Hv. cbv zeta. intros Herror.
  (* the exception the [try] block raised, and the message the handler stores *)
  assert (∃ e v1,
            result_of (process_video_body env vid path w) = inl e
            ∧ videos_db (world_of (process_video env vid path w)) !! vid
              = Some (VideoMetadata.set_error_message (Some (exn_str e))
                        (VideoMetadata.set_processing_status "ERROR" v1)))
    as (e & v1 & Hbody & Hmsg).
  { pose proof (process_video_body_spec env vid path w v Hv) as Hspec.
    revert Herror. unfold process_video, try_except, wp, world_of, result_of in *.
    destruct (process_video_body env vid path w) as [[[e | []] w1] t1];
      cbn [fst snd] in Hspec |- *.
    - destruct Hspec as [[v1 Hv1] _]. intros _.
      pose proof (handler_outcome vid e v1 _ w1 Hv1 eq_refl) as Hh.
      unfold wp in Hh.
      destruct (process_video_handler vid e w1) as [[r w2] t2].
      exists e, v1. split; [done | apply Hh].
    - destruct Hspec as (_ & k & _ & _ & _ & _ & Hj & _).
      rewrite Hj. by intros [= ?]. }
  unfold job_status in Herror.
  destruct (process_video_outcome env vid path w v Hv)
    as [(clip & n & plan & Hv' & _) | (e' & v0 & Hv' & Hv0 & Hc)].
  { rewrite Hv' in Herror. by injection Herror. }
  eexists _, e. split; [exact Hbody |]. split; [exact Hv' |].
  split_and!; try done.
  - rewrite Hv' in Hmsg. apply (inj Some) in Hmsg. by rewrite Hmsg.
  - destruct Hv0 as [-> | [clip ->]]; done.
  - destruct Hv0 as [-> | [clip ->]]; done.
  - intros Hnone.
    unfold get_content_plan, mbind, M_bind, bind, get, result_of. cbn [fst snd].
    by rewrite Hv', Hc, Hnone.
Qed.

Lemma failed_job_has_message_and_no_plan_witness :
  VideoMetadata.error_message
    <$> videos_db
          (world_of (process_video scenario_cut_fails "id0" "uploads/id0_talk.mp4" uploaded))
        !! "id0"
  = Some (Some "encoder failed").
Proof.
  destruct (failed_job_has_message_and_no_plan scenario_cut_fails "id0"
              "uploads/id0_talk.mp4" uploaded _ uploaded_job)
    as (v' & e & Hbody & Hv' & Hmsg & _).
  - vm_compute. reflexivity.
  - rewrite Hv'. cbn [fmap option_fmap option_map]. rewrite Hmsg.
    replace e with (CapabilityError "encoder failed"); [reflexivity |].
    assert (inl (CapabilityError "encoder failed") = (inl e : exn + ())) as [= ->];
      [| reflexivity].
    rewrite <- Hbody. vm_compute. reflexivity.
Defined.

(** * Files removed by a deletion *)

Lemma wp_remove_if_exists_files p (Q : exn + () → World → list Event → Prop) w :
  (∀ w', files w' = files w ∖ {[p]} → Q (inr ()) w' []) → wp (remove_if_exists p) Q w.
Proof.
  intros H. unfold remove_if_exists. apply wp_get. case_bool_decide.
  - apply wp_modify, H. done.
  - apply wp_ret, H. set_solver.
Qed.

Lemma wp_remove_optional_files p (Q : exn + () → World → list Event → Prop) w :
  (∀ w', files w' = files w ∖ optional_path p → Q (inr ()) w' []) →
  wp (remove_optional p) Q w.
Proof.
  intros H. destruct p as [s |]; cbn [remove_optional optional_path] in *.
  - case_bool_decide.
    + apply wp_ret, H. set_solver.
    + apply wp_remove_if_exists_files. exact H.
  - apply wp_ret, H. set_solver.
Qed.

Lemma wp_delete_highlights_files hs :
  ∀ (Q : exn + () → World → list Event → Prop) w,
    (∀ w', files w' = files w ∖ ⋃ (highlight_files <$> hs) → Q (inr ()) w' []) →
    wp (delete_highlights hs) Q w.
Proof.
  induction hs as [| h hs IH]; intros Q w H.
  - apply wp_ret, H. simpl. set_solver.
  - cbn [delete_highlights]. unfold delete_highlight.
    apply wp_bind, wp_bind, wp_remove_if_exists_files. intros w1 F1.
    apply wp_bind, wp_remove_optional_files. intros w2 F2.
    apply wp_bind, wp_remove_optional_files. intros w3 F3.
    apply wp_modify. apply IH. intros w4 F4. apply H.
    rewrite F4. cbn [files with_highlights]. rewrite F3, F2, F1.
    rewrite fmap_cons. cbn [union_list foldr]. unfold highlight_files at 2.
    set_solver.
Qed.

(** X16: deleting a registered Job removes from disk exactly the files the
    Job and its Highlights refer to (the upload, and each Highlight's clip,
    thumbnail and subtitle file): none of them is left, and every other file
    stays. *)
Theorem delete_video_removes_artifacts (vid : string) (w : World)
    (video : VideoMetadata.t) :
  videos_db w !! vid = Some video →
  let w' := world_of (delete_video vid w) in
  files w' = files w ∖ artifacts video (highlights_of vid w)
  ∧ (VideoMetadata.upload_path video ∉ files w')
  ∧ (∀ h, h ∈ highlights_of vid w → HighlightClip.clip_path h ∉ files w')
  ∧ (∀ p, p ∉ artifacts video (highlights_of vid w) → (p ∈ files w' ↔ p ∈ files w)).
Proof.
  intros Hv. cbv zeta.
  assert (files (world_of (delete_video vid w))
          = files w ∖ artifacts video (highlights_of vid w)) as Hfiles.
  { change (wp (delete_video vid)
              (λ _ w' _, files w' = files w ∖ artifacts video (highlights_of vid w)) w).
    unfold delete_video. apply wp_get. rewrite Hv.
    apply wp_bind, wp_remove_if_exists_files. intros w1 F1.
    apply wp_bind, wp_delete_highlights_files. intros w2 F2.
    apply wp_bind, wp_modify. apply wp_get, wp_bind.
    assert (files w2 = files w ∖ artifacts video (highlights_of vid w)) as F.
    { rewrite F2, F1. unfold artifacts. set_solver. }
    destruct (videos_db (with_content_plans (delete vid) w2) !! vid) as [x |].
    - apply wp_modify, wp_bind, wp_modify, wp_ret. exact F.
    - apply wp_raise. exact F. }
  rewrite Hfiles. split; [done |]. split_and!.
  - unfold artifacts. set_solver.
  - intros h Hh. unfold artifacts.
    assert (HighlightClip.clip_path h ∈ ⋃ (highlight_files <$> highlights_of vid w)).
    { apply elem_of_union_list. exists (highlight_files h). split.
      - by apply list_elem_of_fmap_2.
      - unfold highlight_files. set_solver. }
    set_solver.
  - set_solver.
Qed.

Lemma delete_video_removes_artifacts_witness :
  "uploads/id0_talk.mp4" ∉ files (world_of (delete_video "id0" processed)).
Proof.
  destruct processed_job as [video Hv].
  assert (VideoMetadata.upload_path video = "uploads/id0_talk.mp4") as <-.
  { assert (VideoMetadata.upload_path <$> videos_db processed !! "id0"
            = Some "uploads/id0_talk.mp4") as H by (vm_compute; reflexivity).
    rewrite Hv in H. by injection H. }
  exact (proj1 (proj2 (delete_video_removes_artifacts "id0" processed video Hv))).
Defined.

(** * Fabricated highlights *)

(** For a source of positive duration and draws in [0, 1], the three
    fabricated moments are intervals inside the source. *)
Lemma mock_highlights_valid (env : Env) (duration : Q) :
  (0 < duration)%Q →
  (∀ n, (0 <= random env n)%Q ∧ (random env n <= 1)%Q) →
  length (mock_highlights env duration) = 3
  ∧ Forall (λ m, ∃ s e, Moment.start_time m = Some s ∧ Moment.end_time m = Some e
                        ∧ (0 <= s)%Q ∧ (s < e)%Q ∧ (e <= duration)%Q)
      (mock_highlights env duration).
Proof.
  intros Hd Hr. split; [done |].
  unfold mock_highlights. cbn [seq fmap list_fmap].
  repeat constructor.
  all: unfold mock_highlight, uniform; cbv zeta; cbn [Moment.start_time Moment.end_time].
  all: match goal with
       | |- context [random ?e ?a] =>
           destruct (Hr a) as [? ?]; generalize dependent (random e a); intros r1 ? ?
       end.
  all: match goal with
       | |- context [random ?e ?a] =>
           destruct (Hr a) as [? ?]; generalize dependent (random e a); intros r2 ? ?
       end.
  all: try change (inject_Z (Z.of_nat 0)) with 0%Q;
    try change (inject_Z (Z.of_nat 1)) with 1%Q;
    try change (inject_Z (Z.of_nat 2)) with 2%Q.
  all: set (seg := (duration / 5)%Q).
  all: assert (Hseg : (duration == 5 * seg)%Q) by (unfold seg; field).
  all: assert (0 < seg)%Q by lra.
  all: assert (0 <= seg * r1)%Q by nra.
  all: assert (seg * r1 <= seg)%Q by nra.
  all: assert (0 <= seg * r2)%Q by nra.
  all: assert (seg * r2 <= seg)%Q by nra.
  all: destruct (Qlt_le_dec duration _) as [Hlt | Hle];
    eexists _, _; (split; [reflexivity |]); (split; [reflexivity |]).
  all: split_and!; first [ nra | rewrite Hseg; nra ].
Qed.

Lemma unit_draws n : (0 <= random scenario n)%Q ∧ (random scenario n <= 1)%Q.
Proof. split; discriminate. Qed.

(** X17: when the clip opens and the highlight reply cannot be decoded,
    [analyze_video] does not fail and does not touch the state: it answers
    three fabricated moments, and for a source of positive duration and draws
    of [random.random()] in [0, 1] each of them is an interval with
    [0 <= start_time < end_time <= duration] (in exact arithmetic). *)
Theorem undecodable_reply_fabricates_valid_moments (env : Env) (path : string)
    (clip : clip_info) (w : World) :
  VideoFileClip env path = inr clip →
  highlights_reply env path = inr None →
  (0 < clip_duration clip)%Q →
  (∀ n, (0 <= random env n)%Q ∧ (random env n <= 1)%Q) →
  ∃ ms,
    analyze_video env path w
    = (inr (JObject (Some ms)), w, [Called (OpenVideo path); Called (HighlightInference path)])
    ∧ length ms = 3
    ∧ Forall (λ m, ∃ s e, Moment.start_time m = Some s ∧ Moment.end_time m = Some e
                          ∧ (0 <= s)%Q ∧ (s < e)%Q ∧ (e <= clip_duration clip)%Q) ms.
Proof.
  intros Hclip Hreply Hd Hr. exists (mock_highlights env (clip_duration clip)).
  split; [| by apply mock_highlights_valid].
  unfold analyze_video, call, emit, mbind, M_bind, bind. cbn [fst snd].
  rewrite Hclip. cbn. rewrite Hreply. reflexivity.
Qed.

Lemma undecodable_reply_fabricates_valid_moments_witness :
  ∃ ms,
    analyze_video
      (scenario_with (λ _, inr None) (λ _ _ _, inr ()) (λ _, inr None))
      "uploads/id0_talk.mp4" uploaded
    = (inr (JObject (Some ms)), uploaded,
       [Called (OpenVideo "uploads/id0_talk.mp4");
        Called (HighlightInference "uploads/id0_talk.mp4")])
    ∧ length ms = 3.
Proof.
  destruct (undecodable_reply_fabricates_valid_moments
              (scenario_with (λ _, inr None) (λ _ _ _, inr ()) (λ _, inr None))
              "uploads/id0_talk.mp4" (mk_clip 30 25) uploaded)
    as (ms & Hrun & Hlen & _).
  - reflexivity.
  - reflexivity.
  - reflexivity.
  - exact unit_draws.
  - exists ms. by split.
Defined.

(** X18: when the content-plan reply cannot be decoded, [generate_content_plan]
    still returns a plan and leaves the state alone: the plan holds exactly
    one default post per Highlight, in highlight order. *)
Theorem undecodable_plan_reply_default_posts (env : Env) (hs : list HighlightClip.t)
    (h0 : HighlightClip.t) (w : World) :
  head hs = Some h0 →
  content_plan_reply env hs = inr None →
  ∃ plan,
    result_of (generate_content_plan env hs w) = inr plan
    ∧ world_of (generate_content_plan env hs w) = w
    ∧ ContentPlan.posts plan = imap (basic_post env) hs
    ∧ ContentPost.clip_id <$> ContentPlan.posts plan = HighlightClip.id <$> hs
    ∧ length (ContentPlan.posts plan) = length hs.
Proof.
  intros Hhead Hreply.
  destruct (generate_content_plan_undecodable env hs h0 w Hhead Hreply)
    as (plan & Hrun & Hposts & Hids & Hlen).
  exists plan. split_and!; try done.
  by destruct (generate_content_plan_returns env hs w plan Hrun) as (Hw & _).
Qed.

Lemma undecodable_plan_reply_default_posts_witness :
  ∃ plan,
    result_of (generate_content_plan scenario_undecodable two_clips uploaded) = inr plan
    ∧ ContentPost.clip_id <$> ContentPlan.posts plan = HighlightClip.id <$> two_clips.
Proof.
  destruct (undecodable_plan_reply_default_posts scenario_undecodable two_clips
              (HighlightClip.mk "id1" "id0" "Intro" (Some "first") 2 10
                 "clips/id0_highlight_0.mp4" (Some "subtitles/id1.vtt")
                 (Some "thumbnails/id1.jpg")) uploaded)
    as (plan & Hrun & _ & _ & Hids & _).
  - reflexivity.
  - reflexivity.
  - exists plan. by split.
Defined.

Lemma json_source_never_index_error_witness :
  json_source (λ s, s) "[1, 2]" = inr "[1, 2]".
Proof.
  exact (proj2 (json_source_never_index_error (λ s, s) "[1, 2]") eq_refl).
Defined.

Lemma subtitles_text_has_header_witness :
  ∃ s, subtitles_text (λ s, s) "Hello" = inr s ∧ String.prefix "WEBVTT" s = true.
Proof.
  destruct (subtitles_text_has_header (λ s, s) "Hello") as (s & Hs & Hp & _).
  exists s. by split.
Defined.

(** X19: the registry invariant, that every Highlight is stored under its own
    identifier, is kept by every operation that writes to the registry:
    submission, the background task (however it ends), and deletion. *)
Theorem registry_invariant_kept (env : Env) (w : World) (file : UploadFile)
    (title : string) (description : option string) (vid path : string) :
  keyed_by_id w →
  keyed_by_id (world_of (upload_video env file title description w))
  ∧ keyed_by_id (world_of (process_video env vid path w))
  ∧ keyed_by_id (world_of (delete_video vid w)).
Proof.
  intros Hw. split_and!.
  - by apply keyed_upload_video.
  - by apply keyed_process_video.
  - by apply keyed_delete_video.
Qed.

Lemma registry_invariant_kept_witness :
  keyed_by_id (world_of (delete_video "id0" processed)).
Proof.
  exact (proj2 (proj2 (registry_invariant_kept scenario processed mp4_upload "Talk" None
                         "id0" "uploads/id0_talk.mp4" keyed_by_id_processed))).
Defined.

Lemma calls_of_app t1 t2 : calls_of (t1 ++ t2) = calls_of t1 ++ calls_of t2.
Proof. apply omap_app. Qed.

(** X20: after a successful submission the uploaded file exists at
    [uploads/<id>_<filename>], the metadata returned carries that path, the
    Job identifier and the status PROCESSING, and the background task
    scheduled with these arguments gets past the missing-file check: its
    first call opens that file. *)
Theorem upload_then_task_opens_file (env : Env) (file : UploadFile)
    (title : string) (description : option string) (w : World)
    (meta : VideoMetadata.t) (vid path : string) :
  result_of (upload_video env file title description w) = inr (meta, (vid, path)) →
  let w' := world_of (upload_video env file title description w) in
  path = "uploads/" +:+ vid +:+ "_" +:+ filename file
  ∧ path ∈ files w'
  ∧ VideoMetadata.id meta = vid
  ∧ VideoMetadata.upload_path meta = path
  ∧ VideoMetadata.processing_status meta = "PROCESSING"
  ∧ head (calls_of (events_of (process_video env vid path w'))) = Some (OpenVideo path).
Proof.
  intros Hr. cbv zeta.
  assert (path = "uploads/" +:+ vid +:+ "_" +:+ filename file
          ∧ path ∈ files (world_of (upload_video env file title description w))
          ∧ VideoMetadata.id meta = vid
          ∧ VideoMetadata.upload_path meta = path
          ∧ VideoMetadata.processing_status meta = "PROCESSING") as (Hp & Hf & Hi & Hu & Hs).
  { revert Hr. unfold upload_video.
    destruct (negb (type_allowed file)); [discriminate |].
    unfold mbind, M_bind, bind, uuid4, write_file, call, result_of, world_of. simpl.
    destruct (open_write env _) as [e | []]; simpl; [discriminate |].
    destruct (write_data env _) as [e | []]; simpl; [discriminate |].
    intros [= <- <- <-]. split_and!; try done. set_solver. }
  split_and!; try done.
  change (wp (process_video env vid path)
            (λ _ _ t, head (calls_of t) = Some (OpenVideo path))
            (world_of (upload_video env file title description w))).
  unfold process_video, process_video_body.
  apply wp_try, wp_bind, wp_set_status_exact. intros w1.
  apply wp_bind. unfold VideoProcessor. apply wp_get.
  rewrite bool_decide_true by exact Hf.
  apply wp_call.
  assert (∀ t, head (calls_of (([StatusWritten vid "PROCESSING" w1]
                                ++ [Called (OpenVideo path)]) ++ t))
               = Some (OpenVideo path)) as Hhead by done.
  destruct (VideoFileClip env path) as [e | clip].
  - apply wp_any. intros r w2 t2. apply Hhead.
  - apply wp_any. intros [e | []] w2 t2.
    + apply wp_any. intros r w3 t3.
      rewrite <- !app_assoc. rewrite app_assoc. apply Hhead.
    + rewrite app_assoc. apply Hhead.
Qed.

Lemma upload_then_task_opens_file_witness :
  head (calls_of (events_of (process_video scenario "id0" "uploads/id0_talk.mp4" uploaded)))
  = Some (OpenVideo "uploads/id0_talk.mp4").
Proof.
  eapply (upload_then_task_opens_file scenario mp4_upload "Talk" None empty_world
            _ "id0" "uploads/id0_talk.mp4").
  vm_compute. reflexivity.
Defined.
